(** * Vantage dashboard: chart stitching and live refresh

    A shallow embedding of the two stateful pieces of the Vantage frontend:

    - [StockChart] (components/StockChart.tsx): the effect that rebuilds the
      price chart and the MACD chart from a payload and the overlay toggles,
      with its inline null-filtering of overlay points and the stitching of
      the prediction line to the last bar;
    - [Home] (app/page.tsx): the page state, [handleSearch], [silentRefresh]
      and the auto-refresh timer effect, as a transition system whose events
      are the user's actions, timer ticks and completions of [analyzeStock].

    Modelling conventions.
    - A JavaScript [number] is modelled by an integer.  The code only moves
      prices around and compares them; no statement below depends on
      fractional arithmetic.  [Number] of a digit string is exact in the
      model; in JavaScript it is exact below 2^53, which covers every Unix
      timestamp.
    - A chart [Time] is a number or a string, as in lightweight-charts.
    - A thrown exception is a [Throw] result. *)

From Stdlib Require Import List String Ascii Bool Arith ZArith NArith Lia.
From Stdlib Require Import Sorted Decimal DecimalString DecimalN.
Import ListNotations.

Local Open Scope string_scope.
Local Open Scope list_scope.
Local Open Scope Z_scope.

(** ** JavaScript values and array helpers *)

Module Js.

Definition number := Z.

(** [Time] of lightweight-charts, as the component uses it: a UNIX timestamp
    (a number) or a business-day string. *)
Inductive Time :=
| TNum (n : N)
| TStr (s : string).

Definition Time_eqb (a b : Time) : bool :=
  match a, b with
  | TNum x, TNum y => N.eqb x y
  | TStr x, TStr y => String.eqb x y
  | _, _ => false
  end.

(** The character class [\d]. *)
Definition isDigit (c : ascii) : bool :=
  (Nat.leb 48 (nat_of_ascii c) && Nat.leb (nat_of_ascii c) 57)%bool.

Fixpoint allDigits (s : string) : bool :=
  match s with
  | EmptyString => true
  | String c r => (isDigit c && allDigits r)%bool
  end.

(** [/^\d+$/.test(s)] : one digit at least, and nothing else. *)
Definition digitsOnly (s : string) : bool :=
  match s with
  | EmptyString => false
  | String _ _ => allDigits s
  end.

(** [Number(s)] on a digit string. *)
Definition Number (s : string) : N :=
  match NilEmpty.uint_of_string s with
  | Some d => N.of_uint d
  | None => 0%N
  end.

(** [a - b] on two time keys; [None] is NaN.  A string that [toTime] left a
    string is a calendar date such as 2024-01-02, which coerces to NaN.
    Other strings that JavaScript would read as a number (1e3, the empty
    string) do not occur as payload dates and are not modelled. *)
Definition minus (a b : Time) : option Z :=
  match a, b with
  | TNum x, TNum y => Some (Z.of_N x - Z.of_N y)
  | _, _ => None
  end.

(** How [Array.prototype.sort] reads a comparator result [v] for the pair
    (x, y): x goes after y exactly when v > 0; NaN counts as +0. *)
Definition goesAfter (v : option Z) : bool :=
  match v with
  | Some d => 0 <? d
  | None => false
  end.

Section Arrays.
Context {A : Type}.

(** [Array.prototype.sort(cmp)]: a stable sort.  Elements are inserted from
    the right, each before the first element it does not have to follow, so
    elements that compare equal keep their input order.  Every stable sort
    returns this list when [cmp] is a consistent ordering, which it is on
    keys of one kind (all numbers, or all dates); the statements about
    sorted output below are about such inputs. *)
Fixpoint insert (cmp : A -> A -> option Z) (x : A) (l : list A) : list A :=
  match l with
  | [] => [x]
  | y :: r => if goesAfter (cmp x y) then y :: insert cmp x r else x :: l
  end.

Definition sort (cmp : A -> A -> option Z) (l : list A) : list A :=
  fold_right (insert cmp) [] l.

(** [arr.filter((p, i) => f(p, i))], the index starting at [i]. *)
Fixpoint filteri (f : A -> nat -> bool) (i : nat) (l : list A) : list A :=
  match l with
  | [] => []
  | p :: r => if f p i then p :: filteri f (S i) r else filteri f (S i) r
  end.

(** [arr.length] as a condition: zero is falsy. *)
Definition hasLength (l : list A) : bool :=
  negb (Nat.eqb (List.length l) 0).

End Arrays.

(** [x !== null] *)
Definition notNull {A : Type} (x : option A) : bool :=
  match x with
  | Some _ => true
  | None => false
  end.

(** [x as number]: erased at run time.  Every use below follows a filter on
    [notNull], so the default is never read. *)
Definition asNumber (x : option number) : number :=
  match x with
  | Some v => v
  | None => 0
  end.

(** A number used as a condition: null and 0 are falsy. *)
Definition truthy (x : option number) : bool :=
  match x with
  | Some v => negb (v =? 0)
  | None => false
  end.

Inductive Exn :=
| TypeError (msg : string).

Inductive Result (A : Type) :=
| Ok (a : A)
| Throw (e : Exn).

Arguments Ok {A} a.
Arguments Throw {A} e.

Definition bind {A B : Type} (r : Result A) (k : A -> Result B) : Result B :=
  match r with
  | Ok a => k a
  | Throw e => Throw e
  end.

(** Reading a property of [arr[i]]: a TypeError when the slot is undefined. *)
Definition at_ {A : Type} (arr : list A) (i : Z) : Result A :=
  if i <? 0 then Throw (TypeError "Cannot read properties of undefined")
  else match nth_error arr (Z.to_nat i) with
       | Some a => Ok a
       | None => Throw (TypeError "Cannot read properties of undefined")
       end.

End Js.

Import Js.

Notation "x <- r ;; k" := (bind r (fun x => k))
  (at level 61, r at next level, right associativity).

(** ** lib/api.ts: the payload *)

Module OHLCVBar.
Record t := mk {
  date : string;
  open : number;
  high : number;
  low : number;
  close : number;
  volume : number
}.
End OHLCVBar.

Module OverlayPoint.
Record t := mk {
  date : string;
  value : option number
}.
End OverlayPoint.

Module MACDPoint.
Record t := mk {
  date : string;
  macd : option number;
  signal : option number;
  histogram : option number
}.
End MACDPoint.

Module PredictionPoint.
Record t := mk {
  date : string;
  value : number
}.
End PredictionPoint.

Module ChartOverlays.
Record t := mk {
  sma_50 : list OverlayPoint.t;
  sma_200 : list OverlayPoint.t;
  sar : list OverlayPoint.t;
  macd : list MACDPoint.t;
  prediction : list PredictionPoint.t;
  prediction_direction : string;
  prediction_target : option number
}.
End ChartOverlays.

(** The fields of [StockAnalysis] that the chart and the refresh logic read;
    the remaining ones are only displayed. *)
Module StockAnalysis.
Record t := mk {
  ticker : string;
  ohlcv : list OHLCVBar.t;
  overlays : option ChartOverlays.t;
  analyzed_at : string
}.
End StockAnalysis.

(** ** components/StockChart.tsx *)

Module StockChart.

(** Convert date strings: Unix timestamp strings to number, date strings pass
    through. *)
Definition toTime (dateStr : string) : Time :=
  if digitsOnly dateStr then TNum (Number dateStr) else TStr dateStr.

(** [type OverlayKey] and the [active] state of the component. *)
Inductive OverlayKey := sma50 | sma200 | sar | prediction | macd.

Module Active.
Record t := mk {
  sma50 : bool;
  sma200 : bool;
  sar : bool;
  prediction : bool;
  macd : bool
}.
End Active.

Definition initialActive : Active.t :=
  Active.mk true true true true true.

Definition get (active : Active.t) (key : OverlayKey) : bool :=
  match key with
  | sma50 => Active.sma50 active
  | sma200 => Active.sma200 active
  | sar => Active.sar active
  | prediction => Active.prediction active
  | macd => Active.macd active
  end.

(** [setActive((prev) => ({ ...prev, [key]: !prev[key] }))] *)
Definition toggle (key : OverlayKey) (prev : Active.t) : Active.t :=
  match key with
  | sma50 =>
      Active.mk (negb (Active.sma50 prev)) (Active.sma200 prev)
        (Active.sar prev) (Active.prediction prev) (Active.macd prev)
  | sma200 =>
      Active.mk (Active.sma50 prev) (negb (Active.sma200 prev))
        (Active.sar prev) (Active.prediction prev) (Active.macd prev)
  | sar =>
      Active.mk (Active.sma50 prev) (Active.sma200 prev)
        (negb (Active.sar prev)) (Active.prediction prev) (Active.macd prev)
  | prediction =>
      Active.mk (Active.sma50 prev) (Active.sma200 prev)
        (Active.sar prev) (negb (Active.prediction prev)) (Active.macd prev)
  | macd =>
      Active.mk (Active.sma50 prev) (Active.sma200 prev)
        (Active.sar prev) (Active.prediction prev) (negb (Active.macd prev))
  end.

(** Data items handed to [setData]. *)
Module CandlestickData.
Record t := mk {
  time : Time;
  open : number;
  high : number;
  low : number;
  close : number
}.
End CandlestickData.

Module LineData.
Record t := mk {
  time : Time;
  value : number
}.
End LineData.

Module HistogramData.
Record t := mk {
  time : Time;
  value : number;
  color : string
}.
End HistogramData.

(** A series attached to a chart by [addSeries], with the data it was given.
    Of the styling options only the line colour is kept. *)
Inductive Series :=
| Candlestick (data : list CandlestickData.t)
| Histogram (data : list HistogramData.t)
| Line (color : string) (data : list LineData.t).

(** The time scale after [fitContent()], or after a later
    [setVisibleLogicalRange({from, to})]. *)
Inductive VisibleRange :=
| FitContent
| LogicalRange (from to : Z).

Module Chart.
Record t := mk {
  width : N;
  height : N;
  timeVisible : bool;
  series : list Series;
  visibleRange : VisibleRange
}.
End Chart.

(** [priceChartRef] and [macdChartRef]: the charts that currently exist. *)
Module Refs.
Record t := mk {
  priceChartRef : option Chart.t;
  macdChartRef : option Chart.t
}.
End Refs.

(** The inline [.filter((p) => p.value !== null).map((p) => ({ time:
    toTime(p.date), value: p.value as number }))], for any point type. *)
Definition lineData {P : Type} (date : P -> string) (value : P -> option number)
  (points : list P) : list LineData.t :=
  map (fun p => LineData.mk (toTime (date p)) (asNumber (value p)))
      (filter (fun p => notNull (value p)) points).

(** The normalization applied to [sma_50], [sma_200] and [sar]. *)
Definition normalize (points : list OverlayPoint.t) : list LineData.t :=
  lineData OverlayPoint.date OverlayPoint.value points.

(** The prediction line, lines 187-203: anchor at the last bar, drop the
    prediction points dated like the last bar, sort, drop a point whose time
    equals its predecessor's. *)
Definition stitch (lastBar : OHLCVBar.t) (prediction : list PredictionPoint.t)
  : list LineData.t :=
  let predData :=
    LineData.mk (toTime (OHLCVBar.date lastBar)) (OHLCVBar.close lastBar)
    :: map (fun p => LineData.mk (toTime (PredictionPoint.date p))
                                 (PredictionPoint.value p))
         (filter (fun p => negb (String.eqb (PredictionPoint.date p)
                                            (OHLCVBar.date lastBar)))
                 prediction) in
  let predData :=
    sort (fun a b => minus (LineData.time a) (LineData.time b)) predData in
  filteri
    (fun p i =>
       Nat.eqb i 0
       || negb (Time_eqb (LineData.time p)
                         (LineData.time (nth (i - 1) predData p))))
    0 predData.

(** The default window: the last 120 items, lines 209-217 and 290-297. *)
Definition defaultRange (total : Z) : VisibleRange :=
  let visible := Z.min 120 total in
  if visible <? total then LogicalRange (total - visible) total
  else FitContent.

(** The overlay series added to the price chart, in the order of the
    [addSeries] calls.  Only the prediction branch reads the last bar. *)
Definition overlaySeries (data : list OHLCVBar.t) (overlays : ChartOverlays.t)
  (active : Active.t) : Result (list Series) :=
  let s50 :=
    if Active.sma50 active && hasLength (ChartOverlays.sma_50 overlays)
    then [Line "#3b82f6" (normalize (ChartOverlays.sma_50 overlays))]
    else [] in
  let s200 :=
    if Active.sma200 active && hasLength (ChartOverlays.sma_200 overlays)
    then [Line "#f97316" (normalize (ChartOverlays.sma_200 overlays))]
    else [] in
  let ssar :=
    if Active.sar active && hasLength (ChartOverlays.sar overlays)
    then
      let sarFiltered :=
        filter (fun p => notNull (OverlayPoint.value p))
               (ChartOverlays.sar overlays) in
      if Nat.ltb 0 (List.length sarFiltered)
      then [Line "#a855f7"
              (map (fun p => LineData.mk (toTime (OverlayPoint.date p))
                                         (asNumber (OverlayPoint.value p)))
                   sarFiltered)]
      else []
    else [] in
  pred <-
    (if Active.prediction active
        && hasLength (ChartOverlays.prediction overlays)
     then
       lastBar <- at_ data (Z.of_nat (List.length data) - 1) ;;
       Ok [Line "#06b6d4" (stitch lastBar (ChartOverlays.prediction overlays))]
     else Ok []) ;;
  Ok (s50 ++ s200 ++ ssar ++ pred).

Definition candleData (data : list OHLCVBar.t) : list CandlestickData.t :=
  map (fun b => CandlestickData.mk (toTime (OHLCVBar.date b)) (OHLCVBar.open b)
                  (OHLCVBar.high b) (OHLCVBar.low b) (OHLCVBar.close b))
      data.

Definition volumeData (data : list OHLCVBar.t) : list HistogramData.t :=
  map (fun b => HistogramData.mk (toTime (OHLCVBar.date b)) (OHLCVBar.volume b)
                  (if OHLCVBar.close b >=? OHLCVBar.open b
                   then "#22c55e40" else "#ef444440"))
      data.

(** The MACD chart, lines 229-299, on a container of width [w]. *)
Definition macdChart (w : N) (isIntraday : bool) (points : list MACDPoint.t)
  : Chart.t :=
  let macdLine := Line "#3b82f6" (lineData MACDPoint.date MACDPoint.macd points) in
  let sigLine := Line "#f97316" (lineData MACDPoint.date MACDPoint.signal points) in
  let histSeries :=
    Histogram
      (map (fun p => HistogramData.mk (toTime (MACDPoint.date p))
                       (asNumber (MACDPoint.histogram p))
                       (if asNumber (MACDPoint.histogram p) >=? 0
                        then "#22c55e80" else "#ef444480"))
           (filter (fun p => notNull (MACDPoint.histogram p)) points)) in
  let macdTotal :=
    Z.of_nat (List.length (filter (fun p => notNull (MACDPoint.macd p)) points)) in
  Chart.mk w 150 isIntraday [macdLine; sigLine; histSeries]
           (defaultRange macdTotal).

(** The body of the chart effect, lines 58-300.  [priceContainer] and
    [macdContainer] are the two [ref.current] values (the client width of
    the mounted element, or [None]); [refs] holds the charts left by earlier
    runs. *)
Definition effect (priceContainer macdContainer : option N)
  (data : list OHLCVBar.t) (overlays : option ChartOverlays.t)
  (active : Active.t) (refs : Refs.t) : Result Refs.t :=
  match priceContainer with
  | None => Ok refs
  | Some w =>
      if Nat.eqb (List.length data) 0 then Ok refs
      else
        (* tear down previous charts: both refs are null from here on *)
        let isIntraday :=
          digitsOnly (match nth_error data 0 with
                      | Some b => OHLCVBar.date b
                      | None => ""
                      end) in
        let base := [Candlestick (candleData data); Histogram (volumeData data)] in
        extra <-
          (match overlays with
           | Some ov => overlaySeries data ov active
           | None => Ok []
           end) ;;
        let totalBars := Z.of_nat (List.length (candleData data)) in
        let chart :=
          Chart.mk w 420 isIntraday (base ++ extra) (defaultRange totalBars) in
        let macdRef :=
          match overlays, macdContainer with
          | Some ov, Some mw =>
              if Active.macd active && hasLength (ChartOverlays.macd ov)
              then Some (macdChart mw isIntraday (ChartOverlays.macd ov))
              else None
          | _, _ => None
          end in
        Ok (Refs.mk (Some chart) macdRef)
  end.

(** The cleanup returned by the effect: React runs it before the effect runs
    again and on unmount. *)
Definition cleanup (refs : Refs.t) : Refs.t :=
  Refs.mk None None.

(** The prediction banner of the JSX, lines 365-384: the target and the close
    it is compared with (the percentage is formatted from these two). *)
Module Banner.
Record t := mk {
  target : number;
  lastClose : number
}.
End Banner.

Definition banner (data : list OHLCVBar.t) (overlays : option ChartOverlays.t)
  (active : Active.t) : Result (option Banner.t) :=
  match overlays with
  | None => Ok None
  | Some ov =>
      if Active.prediction active && truthy (ChartOverlays.prediction_target ov)
      then
        lastBar <- at_ data (Z.of_nat (List.length data) - 1) ;;
        Ok (Some (Banner.mk (asNumber (ChartOverlays.prediction_target ov))
                            (OHLCVBar.close lastBar)))
      else Ok None
  end.

(** Whether the JSX mounts the MACD container, lines 390-397. *)
Definition macdContainerShown (overlays : option ChartOverlays.t)
  (active : Active.t) : bool :=
  match overlays with
  | Some ov => Active.macd active && hasLength (ChartOverlays.macd ov)
  | None => false
  end.

(** One render of the component, with changed props or toggles, on a page of
    width [w]: the JSX is evaluated, the containers are mounted, the previous
    cleanup runs, then the effect. *)
Definition render (w : N) (data : list OHLCVBar.t)
  (overlays : option ChartOverlays.t) (active : Active.t) (refs : Refs.t)
  : Result (option Banner.t * Refs.t) :=
  b <- banner data overlays active ;;
  let macdContainer :=
    if macdContainerShown overlays active then Some w else None in
  refs' <- effect (Some w) macdContainer data overlays active (cleanup refs) ;;
  Ok (b, refs').

(** The bar indices a time scale shows when the series has [total] items:
    everything after [fitContent], else the items inside the logical range. *)
Definition shown (total : nat) (r : VisibleRange) : list nat :=
  match r with
  | FitContent => seq 0 total
  | LogicalRange from to =>
      filter (fun i => (from <=? Z.of_nat i) && (Z.of_nat i <=? to))
             (seq 0 total)
  end.

End StockChart.

(** ** app/page.tsx *)

Module Home.

(** [latestParamsRef.current] *)
Module Params.
Record t := mk {
  ticker : string;
  period : string;
  interval : string
}.
End Params.

(** A call of [analyzeStock] that has not settled yet, with the function
    that awaits it. *)
Inductive Caller := HandleSearch | SilentRefresh.

Module Request.
Record t := mk {
  caller : Caller;
  params : Params.t
}.
End Request.

(** How a call of [analyzeStock] settles. *)
Inductive Settled :=
| Resolved (data : StockAnalysis.t)
| Rejected (message : string).

(** The state of the page.  [refreshTimer] tells whether an interval is
    armed; [pending] lists the calls of [analyzeStock] in flight, oldest
    first.  Dates are clock readings. *)
Module State.
Record t := mk {
  analysis : option StockAnalysis.t;
  isLoading : bool;
  error : option string;
  currentTicker : string;
  activePeriod : string;
  activeInterval : string;
  autoRefresh : bool;
  lastRefreshed : option N;
  isRefreshing : bool;
  refreshTimer : bool;
  latestParamsRef : Params.t;
  pending : list Request.t
}.
End State.

Import State.

Definition initial : State.t :=
  State.mk None false None "" "2y" "1d" true None false false
           (Params.mk "" "2y" "1d") [].

(** A string used as a condition: the empty string is falsy. *)
Definition nonEmpty (s : string) : bool :=
  negb (String.eqb s "").

(** [silentRefresh] up to its [await]: lines 35-39. *)
Definition silentRefresh (s : State.t) : State.t :=
  let p := latestParamsRef s in
  if negb (nonEmpty (Params.ticker p)) then s
  else
    State.mk (analysis s) (isLoading s) (error s) (currentTicker s)
             (activePeriod s) (activeInterval s) (autoRefresh s)
             (lastRefreshed s) true (refreshTimer s) (latestParamsRef s)
             (pending s ++ [Request.mk SilentRefresh p]).

(** The rest of [silentRefresh], once its call settled at time [now]. *)
Definition silentRefreshSettled (r : Settled) (now : N) (s : State.t) : State.t :=
  match r with
  | Resolved data =>
      State.mk (Some data) (isLoading s) (error s) (currentTicker s)
               (activePeriod s) (activeInterval s) (autoRefresh s)
               (Some now) false (refreshTimer s) (latestParamsRef s)
               (pending s)
  | Rejected _ =>
      State.mk (analysis s) (isLoading s) (error s) (currentTicker s)
               (activePeriod s) (activeInterval s) (autoRefresh s)
               (lastRefreshed s) false (refreshTimer s) (latestParamsRef s)
               (pending s)
  end.

(** The timer effect, lines 50-61, run after [autoRefresh] or
    [currentTicker] changed. *)
Definition timerEffect (s : State.t) : State.t :=
  State.mk (analysis s) (isLoading s) (error s) (currentTicker s)
           (activePeriod s) (activeInterval s) (autoRefresh s)
           (lastRefreshed s) (isRefreshing s)
           (autoRefresh s && nonEmpty (currentTicker s))
           (latestParamsRef s) (pending s).

(** [handleSearch] up to its [await]: lines 64-71. *)
Definition handleSearch (ticker period interval : string) (s : State.t)
  : State.t :=
  State.mk (analysis s) true None ticker period interval (autoRefresh s)
           (lastRefreshed s) (isRefreshing s) (refreshTimer s)
           (Params.mk ticker period interval)
           (pending s ++ [Request.mk HandleSearch (Params.mk ticker period interval)]).

(** The rest of [handleSearch], once its call settled at time [now]. *)
Definition handleSearchSettled (r : Settled) (now : N) (s : State.t) : State.t :=
  match r with
  | Resolved data =>
      State.mk (Some data) false (error s) (currentTicker s)
               (activePeriod s) (activeInterval s) (autoRefresh s)
               (Some now) (isRefreshing s) (refreshTimer s)
               (latestParamsRef s) (pending s)
  | Rejected message =>
      State.mk None false (Some message) (currentTicker s)
               (activePeriod s) (activeInterval s) (autoRefresh s)
               (lastRefreshed s) (isRefreshing s) (refreshTimer s)
               (latestParamsRef s) (pending s)
  end.

(** [setAutoRefresh((v) => !v)] *)
Definition toggleAutoRefresh (s : State.t) : State.t :=
  State.mk (analysis s) (isLoading s) (error s) (currentTicker s)
           (activePeriod s) (activeInterval s) (negb (autoRefresh s))
           (lastRefreshed s) (isRefreshing s) (refreshTimer s)
           (latestParamsRef s) (pending s).

(** Removes the call at position [i] from the calls in flight. *)
Definition settle (i : nat) (s : State.t) : State.t :=
  State.mk (analysis s) (isLoading s) (error s) (currentTicker s)
           (activePeriod s) (activeInterval s) (autoRefresh s)
           (lastRefreshed s) (isRefreshing s) (refreshTimer s)
           (latestParamsRef s)
           (firstn i (pending s) ++ skipn (S i) (pending s)).

(** What can happen to the page. *)
Inductive Event :=
| Search (ticker period interval : string)  (* SearchBar's onSearch *)
| MarketSelect (ticker : string)            (* MarketList's onSelect *)
| ClickRefresh                              (* the "Refresh now" button *)
| ClickAutoRefresh                          (* the LIVE / PAUSED button *)
| TimerFires                                (* the 60 s interval *)
| Settles (i : nat) (r : Settled) (now : N) (* pending call [i] settles *).

(** The refresh button is rendered when [currentTicker] is set and is
    disabled while [isRefreshing]. *)
Definition refreshButtonEnabled (s : State.t) : bool :=
  nonEmpty (currentTicker s) && negb (isRefreshing s).

Definition step (s : State.t) (e : Event) : State.t :=
  match e with
  | Search ticker period interval =>
      timerEffect (handleSearch ticker period interval s)
  | MarketSelect ticker =>
      timerEffect (handleSearch ticker (activePeriod s) (activeInterval s) s)
  | ClickRefresh =>
      if refreshButtonEnabled s then silentRefresh s else s
  | ClickAutoRefresh =>
      if nonEmpty (currentTicker s) then timerEffect (toggleAutoRefresh s)
      else s
  | TimerFires =>
      if refreshTimer s then silentRefresh s else s
  | Settles i r now =>
      match nth_error (pending s) i with
      | None => s
      | Some q =>
          match Request.caller q with
          | HandleSearch => handleSearchSettled r now (settle i s)
          | SilentRefresh => silentRefreshSettled r now (settle i s)
          end
      end
  end.

Definition run (s : State.t) (events : list Event) : State.t :=
  fold_left step events s.

(** The calls of [analyzeStock] issued by [silentRefresh] that are in
    flight. *)
Definition refreshesInFlight (s : State.t) : list Request.t :=
  filter (fun q => match Request.caller q with
                   | SilentRefresh => true
                   | HandleSearch => false
                   end)
         (pending s).

(** The calls issued by one event: the calls in flight after it that were
    not in flight before. *)
Definition issued (s : State.t) (e : Event) : list Request.t :=
  match e with
  | Settles _ _ _ => []
  | _ => skipn (List.length (pending s)) (pending (step s e))
  end.

End Home.

(** ** The vocabulary of the specification *)

Module Spec.

Import StockChart.

(** Order of two time keys of the same kind: numeric for timestamps,
    lexicographic (which is chronological) for ISO dates. *)
Definition Time_lt (a b : Time) : Prop :=
  match a, b with
  | TNum x, TNum y => (x < y)%N
  | TStr x, TStr y => String.ltb x y = true
  | _, _ => False
  end.

Definition Time_le (a b : Time) : Prop :=
  Time_lt a b \/ a = b.

Definition times (l : list LineData.t) : list Time :=
  map LineData.time l.

(** "Non-decreasing in time key" and "no two adjacent equal time keys". *)
Definition nonDecreasing (l : list LineData.t) : Prop :=
  Sorted Time_le (times l).

Definition noAdjacentEqual (l : list LineData.t) : Prop :=
  Sorted (fun a b => a <> b) (times l).

(** A calendar date YYYY-MM-DD. *)
Definition isoDate (s : string) : bool :=
  match s with
  | String y1 (String y2 (String y3 (String y4 (String h1
      (String m1 (String m2 (String h2 (String d1 (String d2 EmptyString)))))))))
    =>
      isDigit y1 && isDigit y2 && isDigit y3 && isDigit y4
      && Ascii.eqb h1 "-" && isDigit m1 && isDigit m2
      && Ascii.eqb h2 "-" && isDigit d1 && isDigit d2
  | _ => false
  end.

(** The date strings the payload carries: a timestamp or a calendar date. *)
Definition dateKey (s : string) : bool :=
  digitsOnly s || isoDate s.

(** The synthetic point [{time: lastBar.time, value: lastBar.close}]. *)
Definition anchor (lastBar : OHLCVBar.t) : LineData.t :=
  LineData.mk (toTime (OHLCVBar.date lastBar)) (OHLCVBar.close lastBar).

Definition asLine (p : PredictionPoint.t) : LineData.t :=
  LineData.mk (toTime (PredictionPoint.date p)) (PredictionPoint.value p).

(** Section 4.2, "with any resulting adjacent duplicate time keys collapsed
    (keep the first occurrence)": [collapseFrom prev l] drops each point
    whose key equals the key just before it. *)
Fixpoint collapseFrom (prev : Time) (l : list LineData.t) : list LineData.t :=
  match l with
  | [] => []
  | p :: r =>
      if Time_eqb (LineData.time p) prev
      then collapseFrom (LineData.time p) r
      else p :: collapseFrom (LineData.time p) r
  end.

Definition collapse (l : list LineData.t) : list LineData.t :=
  match l with
  | [] => []
  | p :: r => p :: collapseFrom (LineData.time p) r
  end.

(** The comparator handed to [sort]: [(a, b) => a.time - b.time]. *)
Definition byTime (a b : LineData.t) : option Z :=
  minus (LineData.time a) (LineData.time b).

(** The timestamp of a point whose key is a number. *)
Definition stamp (p : LineData.t) : N :=
  match LineData.time p with
  | TNum n => n
  | TStr _ => 0%N
  end.

Definition isNum (p : LineData.t) : Prop :=
  LineData.time p = TNum (stamp p).

Definition stampLe (a b : LineData.t) : Prop :=
  (stamp a <= stamp b)%N.

Definition keyLt (a b : LineData.t) : Prop :=
  Time_lt (LineData.time a) (LineData.time b).

(** The prediction stitcher as claim C1 words it. *)
Definition stitchedAsClaimed (lastBar : OHLCVBar.t)
  (prediction : list PredictionPoint.t) : Prop :=
  let out := stitch lastBar prediction in
  out = anchor lastBar
        :: map asLine
             (filter (fun p => negb (Time_eqb (toTime (PredictionPoint.date p))
                                              (toTime (OHLCVBar.date lastBar))))
                     prediction)
  /\ nonDecreasing out
  /\ noAdjacentEqual out
  /\ option_map LineData.value (hd_error out) = Some (OHLCVBar.close lastBar).

(** Timestamp keys throughout: the last bar and every prediction point carry
    a digit-string date. *)
Definition timestamps (lastBar : OHLCVBar.t)
  (prediction : list PredictionPoint.t) : Prop :=
  digitsOnly (OHLCVBar.date lastBar) = true
  /\ Forall (fun p => digitsOnly (PredictionPoint.date p) = true) prediction.

(** The contract of the data model: well-formed dates, strictly increasing
    from the last bar on. *)
Definition afterLastBar (lastBar : OHLCVBar.t)
  (prediction : list PredictionPoint.t) : Prop :=
  Forall (fun s => dateKey s = true)
         (OHLCVBar.date lastBar :: map PredictionPoint.date prediction)
  /\ StronglySorted Time_lt
       (map toTime (OHLCVBar.date lastBar :: map PredictionPoint.date prediction)).

(** Section 4.1, by recursion on the input: the points whose value is
    present, in input order. *)
Fixpoint presentPoints (points : list OverlayPoint.t) : list LineData.t :=
  match points with
  | [] => []
  | p :: r =>
      match OverlayPoint.value p with
      | Some v => LineData.mk (toTime (OverlayPoint.date p)) v :: presentPoints r
      | None => presentPoints r
      end
  end.

(** [String(t)] for a time key. *)
Definition timeText (t : Time) : string :=
  match t with
  | TNum n => NilEmpty.string_of_uint (N.to_uint n)
  | TStr s => s
  end.

(** A normalized point read again as an overlay point. *)
Definition asOverlayPoint (q : LineData.t) : OverlayPoint.t :=
  OverlayPoint.mk (timeText (LineData.time q)) (Some (LineData.value q)).

(** The normalized fast line of the oscillator. *)
Definition fastLine (points : list MACDPoint.t) : list LineData.t :=
  lineData MACDPoint.date MACDPoint.macd points.

(** The oscillator gate as claim C7 words it: the pane exists after the
    render exactly when the overlay is visible and the normalized fast line
    is non-empty. *)
Definition oscillatorGateAsClaimed (data : list OHLCVBar.t)
  (overlays : ChartOverlays.t) (active : Active.t) (refs : Refs.t) : Prop :=
  Refs.macdChartRef refs <> None
  <-> (Active.macd active = true /\ fastLine (ChartOverlays.macd overlays) <> []).

Definition allHidden : Active.t :=
  Active.mk false false false false false.

(** The last [k] of [total] bar indices. *)
Definition lastBars (k total : nat) : list nat :=
  seq (total - k) k.

Import Home.

(** Whether, along [events] from state [s], a call for [symbol] has resolved. *)
Fixpoint succeeded (symbol : string) (s : State.t) (events : list Event) : bool :=
  match events with
  | [] => false
  | e :: rest =>
      match e with
      | Settles i (Resolved _) _ =>
          match nth_error (State.pending s) i with
          | Some q => String.eqb (Params.ticker (Request.params q)) symbol
          | None => false
          end
      | _ => false
      end
      || succeeded symbol (step s e) rest
  end.

(** "At most one refresh in flight", as claim C2 words it. *)
Definition singleRefreshAsClaimed : Prop :=
  forall events,
    (List.length (refreshesInFlight (run initial events)) <= 1)%nat.

(** "A result for another symbol than the active one is dropped", as claim
    C3 words it. *)
Definition staleDroppedAsClaimed : Prop :=
  forall events i q r now,
    let s := run initial events in
    nth_error (State.pending s) i = Some q ->
    Params.ticker (Request.params q) <> State.currentTicker s ->
    State.analysis (step s (Settles i r now)) = State.analysis s.

(** "No refresh for a symbol without a successful fetch", as claim C6 words
    it. *)
Definition noRefreshBeforeSuccessAsClaimed : Prop :=
  forall events e q,
    In q (issued (run initial events) e) ->
    Request.caller q = SilentRefresh ->
    succeeded (Params.ticker (Request.params q)) initial events = true.

(** Two sample payloads. *)
Definition aapl : StockAnalysis.t :=
  StockAnalysis.mk "AAPL" [OHLCVBar.mk "2024-01-02" 10 12 9 11 1000] None
                   "2024-01-02T10:00:00".

Definition tsla : StockAnalysis.t :=
  StockAnalysis.mk "TSLA" [OHLCVBar.mk "2024-01-02" 20 22 19 21 2000] None
                   "2024-01-02T10:00:05".

(** The events that start a search. *)
Definition isSearch (e : Event) : bool :=
  match e with
  | Search _ _ _ => true
  | MarketSelect _ => true
  | _ => false
  end.

(** What holds of the page state after any sequence of events: the ref
    mirrors the active triple, and the interval is armed exactly when
    auto-refresh is on and a ticker is set. *)
Definition consistent (s : State.t) : Prop :=
  State.latestParamsRef s
  = Params.mk (State.currentTicker s) (State.activePeriod s)
              (State.activeInterval s)
  /\ State.refreshTimer s
     = State.autoRefresh s && nonEmpty (State.currentTicker s).

End Spec.

(** ** The rest of the dashboard

    The parts of the code around the chart and the page: the resize handler
    of the chart, what the page shows, the search form, the market list,
    the API call and the mapping of the signed-in user. *)

(** *** components/StockChart.tsx: the resize handler *)

Module Resize.

Import StockChart.

(** [chart.applyOptions({ width: w })] *)
Definition applyWidth (w : N) (chart : Chart.t) : Chart.t :=
  Chart.mk w (Chart.height chart) (Chart.timeVisible chart)
           (Chart.series chart) (Chart.visibleRange chart).

(** [handleResize], lines 303-311.  [priceContainer] is
    [priceContainerRef.current?.clientWidth]; a width of 0 is falsy.  Both
    charts take the width of the price container. *)
Definition handleResize (priceContainer : option N) (refs : Refs.t) : Refs.t :=
  match priceContainer with
  | None => refs
  | Some w =>
      if negb (N.eqb w 0)
      then Refs.mk (option_map (applyWidth w) (Refs.priceChartRef refs))
                   (option_map (applyWidth w) (Refs.macdChartRef refs))
      else refs
  end.

End Resize.

(** *** components/StockChart.tsx: the overlay labels *)

Module Labels.

Import StockChart.

(** [OVERLAY_LABELS[key].color], lines 33-39. *)
Definition color (key : OverlayKey) : string :=
  match key with
  | sma50 => "#3b82f6"
  | sma200 => "#f97316"
  | sar => "#a855f7"
  | prediction => "#06b6d4"
  | macd => "#10b981"
  end.

Definition OverlayKey_eqb (a b : OverlayKey) : bool :=
  match a, b with
  | sma50, sma50 | sma200, sma200 | sar, sar
  | prediction, prediction | macd, macd => true
  | _, _ => false
  end.

Definition isLineOf (color : string) (s : Series) : bool :=
  match s with
  | Line c _ => String.eqb c color
  | _ => false
  end.

(** The series of a chart other than the lines of one colour. *)
Definition withoutLine (color : string) (series : list Series) : list Series :=
  filter (fun s => negb (isLineOf color s)) series.

Definition seriesTimes (s : Series) : list Time :=
  match s with
  | Candlestick data => map CandlestickData.time data
  | Histogram data => map HistogramData.time data
  | Line _ data => map LineData.time data
  end.

Definition seriesLength (s : Series) : nat :=
  List.length (seriesTimes s).

(** The overlays drawn on the price chart, in the order of their
    [addSeries] calls. *)
Definition priceOverlays : list OverlayKey :=
  [sma50; sma200; sar; prediction].

(** The series one overlay adds to the price chart when its toggle is on. *)
Definition contribution (key : OverlayKey) (lastBar : OHLCVBar.t)
  (ov : ChartOverlays.t) : list Series :=
  match key with
  | sma50 =>
      if hasLength (ChartOverlays.sma_50 ov)
      then [Line (color sma50) (normalize (ChartOverlays.sma_50 ov))]
      else []
  | sma200 =>
      if hasLength (ChartOverlays.sma_200 ov)
      then [Line (color sma200) (normalize (ChartOverlays.sma_200 ov))]
      else []
  | sar =>
      if hasLength (ChartOverlays.sar ov)
         && Nat.ltb 0 (List.length
                         (filter (fun p => notNull (OverlayPoint.value p))
                                 (ChartOverlays.sar ov)))
      then [Line (color sar) (normalize (ChartOverlays.sar ov))]
      else []
  | prediction =>
      if hasLength (ChartOverlays.prediction ov)
      then [Line (color prediction) (stitch lastBar (ChartOverlays.prediction ov))]
      else []
  | macd => []
  end.

Definition contributions (active : Active.t) (lastBar : OHLCVBar.t)
  (ov : ChartOverlays.t) : list Series :=
  flat_map (fun key => if get active key then contribution key lastBar ov
                       else [])
           priceOverlays.

End Labels.

(** *** app/page.tsx: what the page shows *)

Module View.

Import Home.

(** A [string | null] used as a condition. *)
Definition truthyString (s : option string) : bool :=
  match s with
  | Some t => nonEmpty t
  | None => false
  end.

(** The four regions of the main column, lines 188-259. *)
Definition showsError (s : State.t) : bool :=
  truthyString (State.error s).

Definition showsLoading (s : State.t) : bool :=
  State.isLoading s.

Definition showsResults (s : State.t) : bool :=
  notNull (State.analysis s) && negb (State.isLoading s).

Definition showsEmptyState (s : State.t) : bool :=
  negb (notNull (State.analysis s)) && negb (State.isLoading s)
  && negb (truthyString (State.error s)).

(** The "Last refresh" note of the footer, lines 236-241. *)
Definition showsLastRefresh (s : State.t) : bool :=
  showsResults s && notNull (State.lastRefreshed s).

Definition isHandleSearch (q : Request.t) : bool :=
  match Request.caller q with
  | HandleSearch => true
  | SilentRefresh => false
  end.

Definition isSilentRefresh (q : Request.t) : bool :=
  match Request.caller q with
  | SilentRefresh => true
  | HandleSearch => false
  end.

(** Each busy flag has a call of its kind in flight. *)
Definition flagsBacked (s : State.t) : Prop :=
  (State.isLoading s = true -> existsb isHandleSearch (State.pending s) = true)
  /\ (State.isRefreshing s = true
      -> existsb isSilentRefresh (State.pending s) = true).

(** A search event carries a ticker, as the search form and the market
    list pass it. *)
Definition hasTicker (e : Event) : bool :=
  match e with
  | Search ticker _ _ => nonEmpty ticker
  | MarketSelect ticker => nonEmpty ticker
  | _ => true
  end.

End View.

(** *** lib/api.ts: analyzeStock *)

Module Api.

Import Home.

(** The body of a non-ok response as [res.json().catch(...)] sees it: not
    JSON at all, or an object whose [detail], when present, is the string
    FastAPI sends. *)
Inductive ErrorBody :=
| NotJson
| Json (detail : option string).

(** An HTTP response to the analyze request. *)
Inductive Response :=
| OkResponse (data : StockAnalysis.t)
| ErrorResponse (body : ErrorBody).

(** [analyzeStock], lines 78-91, given the response of [fetch]. *)
Definition analyzeStock (ticker period interval : string) (res : Response)
  : Settled :=
  match res with
  | OkResponse data => Resolved data
  | ErrorResponse body =>
      let detail :=
        match body with
        | NotJson => Some "Unknown error"
        | Json d => d
        end in
      Rejected (if View.truthyString detail
                then match detail with Some m => m | None => "" end
                else "Failed to analyze " ++ ticker)
  end.

End Api.

(** *** lib/auth.ts and context/AuthContext.tsx: toUser *)

Module Auth.

(** The fields of a Supabase user that [toUser] reads; [username] is
    [user_metadata?.username]. *)
Module SupabaseUser.
Record t := mk {
  id : string;
  email : option string;
  username : option string
}.
End SupabaseUser.

Module User.
Record t := mk {
  id : string;
  email : string;
  username : string
}.
End User.




End Auth.

(** *** components/SearchBar.tsx *)

Module SearchBar.

Module Period.
Record t := mk {
  value : string;
  label : string;
  yfPeriod : string;
  yfInterval : string
}.
End Period.

Definition PERIODS : list Period.t :=
  [ Period.mk "5m" "5m" "1d" "5m";
    Period.mk "1d" "1D" "5d" "30m";
    Period.mk "1mo" "1M" "1mo" "1d";
    Period.mk "3mo" "3M" "3mo" "1d";
    Period.mk "6mo" "6M" "6mo" "1d";
    Period.mk "1y" "1Y" "1y" "1d";
    Period.mk "2y" "2Y" "2y" "1d";
    Period.mk "5y" "5Y" "5y" "1wk" ].

(** [PERIODS.find((x) => x.value === value)] *)
Definition findPeriod (value : string) : option Period.t :=
  find (fun x => String.eqb (Period.value x) value) PERIODS.

(** The form state: the text of the input and the selected period. *)
Module Form.
Record t := mk {
  ticker : string;
  period : string
}.
End Form.

Definition initialForm : Form.t := Form.mk "" "2y".

Section Strings.

(** [String.prototype.trim] and [String.prototype.toUpperCase]. *)
Variables (trim toUpperCase : string -> string).

(** [ticker.trim().toUpperCase() || currentTicker || ""] *)
Definition getActiveTicker (form : Form.t) (currentTicker : option string)
  : string :=
  let typed := toUpperCase (trim (Form.ticker form)) in
  if Home.nonEmpty typed then typed
  else match currentTicker with
       | Some c => if Home.nonEmpty c then c else ""
       | None => ""
       end.

(** [handleSubmit]: the call of [onSearch] it makes, if any. *)
Definition handleSubmit (form : Form.t) (currentTicker : option string)
  : option Home.Event :=
  let cleaned := getActiveTicker form currentTicker in
  if Home.nonEmpty cleaned
  then
    let p := match findPeriod (Form.period form) with
             | Some p => p
             | None => nth 5 PERIODS (Period.mk "" "" "" "")
             end in
    Some (Home.Search cleaned (Period.yfPeriod p) (Period.yfInterval p))
  else None.

(** [handlePeriodClick]: the form state after [setPeriod(value)], and the
    call of [onSearch] it makes, if any; [find(...)!] is read without a
    check. *)
Definition handlePeriodClick (value : string) (form : Form.t)
  (currentTicker : option string) : Form.t * Result (option Home.Event) :=
  let form' := Form.mk (Form.ticker form) value in
  let cleaned := getActiveTicker form currentTicker in
  (form',
   if Home.nonEmpty cleaned
   then
     match findPeriod value with
     | Some p =>
         Ok (Some (Home.Search cleaned (Period.yfPeriod p)
                               (Period.yfInterval p)))
     | None => Throw (TypeError "Cannot read properties of undefined")
     end
   else Ok None).

End Strings.

End SearchBar.

(** *** components/MarketList.tsx *)

Module MarketList.

(** A watchlist request in flight: its category and the [cancelled]
    variable of the effect run that issued it, as an index into the store
    of such variables. *)
Module Fetch.
Record t := mk {
  category : string;
  cell : nat
}.
End Fetch.

(** [MarketItem] of lib/api.ts. *)
Module MarketItem.
Record t := mk {
  ticker : string;
  name : string;
  price : option number;
  change : option number;
  change_pct : option number
}.
End MarketItem.

(** How [getWatchlistCategory] settles. *)
Inductive Outcome :=
| Loaded (items : list MarketItem.t)
| Failed (message : string).

(** The state of the list.  [cells] holds the [cancelled] variable of every
    effect run so far, the last one being the current run's. *)
Module State.
Record t := mk {
  activeTab : string;
  items : list MarketItem.t;
  isLoading : bool;
  error : option string;
  cells : list bool;
  pending : list Fetch.t
}.
End State.

Import State.

(** [cancelled = true] in the current effect run. *)
Definition cancelCurrent (cells : list bool) : list bool :=
  match cells with
  | [] => []
  | _ :: _ => removelast cells ++ [true]
  end.

Definition isCancelled (cells : list bool) (cell : nat) : bool :=
  nth cell cells true.

(** The effect body, lines 33-47, for the tab [tab]. *)
Definition runEffect (tab : string) (s : State.t) : State.t :=
  State.mk tab (items s) true None (cells s ++ [false])
           (pending s ++ [Fetch.mk tab (List.length (cells s))]).

(** The cleanup of the current effect run, lines 49-51. *)
Definition runCleanup (s : State.t) : State.t :=
  State.mk (activeTab s) (items s) (isLoading s) (error s)
           (cancelCurrent (cells s)) (pending s).

(** The state once the component has mounted. *)
Definition mounted : State.t :=
  runEffect "stocks" (State.mk "stocks" [] false None [] []).

Inductive Event :=
| ClickTab (key : string)
| Settles (i : nat) (outcome : Outcome)
| Unmount.

Definition remove (i : nat) (l : list Fetch.t) : list Fetch.t :=
  firstn i l ++ skipn (S i) l.

Definition step (s : State.t) (e : Event) : State.t :=
  match e with
  | ClickTab key =>
      if String.eqb key (activeTab s) then s
      else runEffect key (runCleanup s)
  | Settles i outcome =>
      match nth_error (pending s) i with
      | None => s
      | Some f =>
          if isCancelled (cells s) (Fetch.cell f)
          then State.mk (activeTab s) (items s) (isLoading s) (error s)
                        (cells s) (remove i (pending s))
          else
            match outcome with
            | Loaded data =>
                State.mk (activeTab s) data false (error s) (cells s)
                         (remove i (pending s))
            | Failed message =>
                State.mk (activeTab s) (items s) false (Some message)
                         (cells s) (remove i (pending s))
            end
      end
  | Unmount => runCleanup s
  end.

Definition run (s : State.t) (events : list Event) : State.t :=
  fold_left step events s.

(** The list is shown when nothing is loading, there is no error and there
    are items, line 86. *)
Definition showsList (s : State.t) : bool :=
  negb (isLoading s) && negb (View.truthyString (error s))
  && Nat.ltb 0 (List.length (items s)).

(** The requests whose response would still be applied. *)
Definition live (s : State.t) : list Fetch.t :=
  filter (fun f => negb (isCancelled (cells s) (Fetch.cell f))) (pending s).

Definition isUnmount (e : Event) : bool :=
  match e with
  | Unmount => true
  | _ => false
  end.

(** What holds while the component is mounted: the current effect run is
    not cancelled, every request of an earlier run is, and the current run
    has a request in flight exactly while the list is loading, for the
    active tab. *)
Definition wellKept (s : State.t) : Prop :=
  (exists older, cells s = older ++ [false])
  /\ Forall (fun f => (Fetch.cell f < List.length (cells s))%nat) (pending s)
  /\ live s = (if isLoading s
               then [Fetch.mk (activeTab s) (List.length (cells s) - 1)]
               else []).

End MarketList.

(** * Properties *)

Import StockChart.
Import Spec.

(** ** Time keys *)

Section TimeKeys.

Lemma Time_eqb_spec (a b : Time) : reflect (a = b) (Time_eqb a b).
Proof.
  destruct a as [x|x], b as [y|y]; simpl; try (constructor; discriminate).
  - destruct (N.eqb_spec x y); constructor; congruence.
  - destruct (String.eqb_spec x y); constructor; congruence.
Qed.

Lemma Time_lt_irrefl (a : Time) : ~ Time_lt a a.
Proof.
  destruct a as [x|x]; simpl.
  - lia.
  - unfold String.ltb. pose proof (String.compare_antisym x x) as E.
    destruct (String.compare x x); simpl in E; discriminate.
Qed.

Lemma Time_lt_neq (a b : Time) : Time_lt a b -> Time_eqb b a = false.
Proof.
  intros H. destruct (Time_eqb_spec b a) as [->|]; [|reflexivity].
  now apply Time_lt_irrefl in H.
Qed.

Lemma allDigits_string_of_uint (d : Decimal.uint) :
  allDigits (NilEmpty.string_of_uint d) = true.
Proof. induction d; simpl; auto. Qed.

Lemma digitsOnly_text (n : N) :
  digitsOnly (NilEmpty.string_of_uint (N.to_uint n)) = true.
Proof.
  assert (Hn : N.to_uint n <> Decimal.Nil).
  { rewrite <- (DecimalN.Unsigned.of_to n) at 1.
    rewrite DecimalN.Unsigned.to_of. apply DecimalFacts.unorm_nonnil. }
  pose proof (allDigits_string_of_uint (N.to_uint n)) as Hd.
  destruct (N.to_uint n); try congruence; exact Hd.
Qed.

Lemma Number_text (n : N) :
  Number (NilEmpty.string_of_uint (N.to_uint n)) = n.
Proof.
  unfold Number. rewrite NilEmpty.usu. apply DecimalN.Unsigned.of_to.
Qed.

(** Reading a key back from its text gives the key again. *)
Lemma toTime_timeText (s : string) :
  toTime (timeText (toTime s)) = toTime s.
Proof.
  unfold toTime at 2 3. destruct (digitsOnly s) eqn:E; simpl.
  - unfold toTime. now rewrite digitsOnly_text, Number_text.
  - unfold toTime. now rewrite E.
Qed.

End TimeKeys.

(** ** Series normalizer *)

Section Normalizer.

Lemma normalize_presentPoints (points : list OverlayPoint.t) :
  normalize points = presentPoints points.
Proof.
  unfold normalize, lineData.
  induction points as [|p r IH]; simpl; [reflexivity|].
  destruct (OverlayPoint.value p) as [v|] eqn:E; simpl.
  - rewrite E. simpl. now rewrite IH.
  - exact IH.
Qed.

Lemma presentPoints_reread (out : list LineData.t) :
  Forall (fun q => exists s, LineData.time q = toTime s) out ->
  presentPoints (map asOverlayPoint out) = out.
Proof.
  induction 1 as [|q r [s Hs] _ IH]; simpl; [reflexivity|].
  rewrite IH, Hs, toTime_timeText, <- Hs. now destruct q.
Qed.

Lemma presentPoints_times (points : list OverlayPoint.t) :
  Forall (fun q => exists s, LineData.time q = toTime s) (presentPoints points).
Proof.
  induction points as [|p r IH]; simpl; [constructor|].
  destruct (OverlayPoint.value p); [|exact IH].
  constructor; [|exact IH]. now exists (OverlayPoint.date p).
Qed.

(** C5. The series normalizer returns exactly the input points whose value
    is present, in input order ([presentPoints] walks the input once and
    keeps a point when its value is there), with as many points as the input
    has present values; and it is idempotent: a normalized list, read again
    as overlay points, normalizes to itself. *)
Theorem normalize_subsequence_idempotent (points : list OverlayPoint.t) :
  normalize points = presentPoints points
  /\ List.length (normalize points)
     = List.length (filter (fun p => notNull (OverlayPoint.value p)) points)
  /\ normalize (map asOverlayPoint (normalize points)) = normalize points.
Proof.
  split; [apply normalize_presentPoints|]. split.
  - unfold normalize, lineData. apply length_map.
  - rewrite !normalize_presentPoints.
    apply presentPoints_reread, presentPoints_times.
Qed.

End Normalizer.

(** ** Sorting and collapsing *)

Section SortFacts.

Context {A : Type} (cmp : A -> A -> option Z).

Lemma insert_Forall (P : A -> Prop) (x : A) (l : list A) :
  P x -> Forall P l -> Forall P (insert cmp x l).
Proof.
  intros Hx Hl. induction Hl as [|y r Hy Hr IH]; simpl.
  - now constructor.
  - destruct (goesAfter (cmp x y)); repeat constructor; auto.
Qed.

Lemma sort_Forall (P : A -> Prop) (l : list A) :
  Forall P l -> Forall P (sort cmp l).
Proof.
  induction 1 as [|x r Hx Hr IH]; simpl; [constructor|].
  now apply insert_Forall.
Qed.

(** The sort leaves alone a list in which no element has to follow a later
    one. *)
Lemma sort_id (l : list A) :
  StronglySorted (fun a b => goesAfter (cmp a b) = false) l ->
  sort cmp l = l.
Proof.
  induction 1 as [|x r Hr IH Hx]; simpl; [reflexivity|].
  fold (sort cmp r). rewrite IH.
  destruct Hx as [|y r' Hy _]; simpl; [reflexivity|]. now rewrite Hy.
Qed.

(** An element that has to follow none of the others stays in front. *)
Lemma sort_head (x : A) (l : list A) :
  Forall (fun y => goesAfter (cmp x y) = false) l ->
  sort cmp (x :: l) = x :: sort cmp l.
Proof.
  intros H. apply sort_Forall in H. simpl. fold (sort cmp l).
  destruct H as [|y r' Hy _]; simpl; [reflexivity|]. now rewrite Hy.
Qed.

End SortFacts.

Section Stitcher.

Lemma StronglySorted_map {X Y : Type} (f : X -> Y) (R : Y -> Y -> Prop)
  (l : list X) :
  StronglySorted R (map f l) <-> StronglySorted (fun a b => R (f a) (f b)) l.
Proof.
  induction l as [|x r IH]; simpl.
  - split; constructor.
  - split; intros H; inversion H; subst; constructor;
      try (now apply IH); now apply Forall_map.
Qed.

Lemma Sorted_times (R : Time -> Time -> Prop) (l : list LineData.t) :
  (forall a b, Time_lt a b -> R a b) ->
  StronglySorted keyLt l -> Sorted R (times l).
Proof.
  intros HR. induction 1 as [|x r Hr IH Hx]; simpl; constructor; auto.
  destruct Hx as [|y r' Hy _]; simpl; constructor. now apply HR.
Qed.

(** The index filter of the source is the collapse of runs of equal keys. *)
Lemma filteri_collapseFrom (pre : list LineData.t) (q : LineData.t)
  (l : list LineData.t) :
  filteri
    (fun p i =>
       Nat.eqb i 0
       || negb (Time_eqb (LineData.time p)
                         (LineData.time (nth (i - 1) (pre ++ q :: l) p))))
    (S (List.length pre)) l
  = collapseFrom (LineData.time q) l.
Proof.
  revert pre q. induction l as [|p r IH]; intros pre q; simpl; [reflexivity|].
  rewrite Nat.sub_0_r, app_nth2, Nat.sub_diag by lia. simpl.
  specialize (IH (pre ++ [q]) p).
  rewrite <- app_assoc, length_app, Nat.add_comm in IH. simpl in IH.
  rewrite IH. now destruct (Time_eqb (LineData.time p) (LineData.time q)).
Qed.

Lemma stitch_collapse_sort (lastBar : OHLCVBar.t)
  (prediction : list PredictionPoint.t) :
  stitch lastBar prediction
  = collapse
      (sort byTime
         (anchor lastBar
          :: map asLine
               (filter (fun p => negb (String.eqb (PredictionPoint.date p)
                                                  (OHLCVBar.date lastBar)))
                       prediction))).
Proof.
  unfold stitch. fold (anchor lastBar). fold asLine. fold byTime.
  set (arr := sort byTime _). clearbody arr.
  destruct arr as [|p r]; simpl; [reflexivity|].
  f_equal. apply (filteri_collapseFrom [] p r).
Qed.

(** *** Timestamp keys: the output is strictly increasing *)

Lemma goesAfter_num (a b : LineData.t) :
  isNum a -> isNum b ->
  goesAfter (byTime a b) = (stamp b <? stamp a)%N.
Proof.
  unfold isNum, byTime. intros -> ->. simpl.
  destruct (N.ltb_spec (stamp b) (stamp a)), (Z.ltb_spec 0 (Z.of_N (stamp a) - Z.of_N (stamp b)));
    try reflexivity; lia.
Qed.

Lemma insert_sorted (x : LineData.t) (l : list LineData.t) :
  isNum x -> Forall isNum l ->
  StronglySorted stampLe l -> StronglySorted stampLe (insert byTime x l).
Proof.
  intros Hx Hn Hs. induction Hs as [|y r Hr IH Hy]; simpl.
  - repeat constructor.
  - inversion Hn as [|? ? Hny Hnr]; subst.
    rewrite (goesAfter_num x y Hx Hny).
    destruct (N.ltb_spec (stamp y) (stamp x)) as [Hlt|Hge].
    + constructor; [now apply IH|].
      apply insert_Forall; [unfold stampLe; lia | exact Hy].
    + constructor; [now constructor|].
      constructor; [exact Hge|].
      eapply Forall_impl; [|exact Hy]. unfold stampLe. intros; lia.
Qed.

Lemma sort_sorted (l : list LineData.t) :
  Forall isNum l -> StronglySorted stampLe (sort byTime l).
Proof.
  induction 1 as [|x r Hx Hr IH]; simpl; [constructor|].
  apply insert_sorted; auto. now apply sort_Forall.
Qed.

Lemma lt_of_stamp (a b : LineData.t) :
  isNum a -> (stamp a < stamp b)%N -> keyLt a b.
Proof.
  intros Ha H. unfold keyLt. rewrite Ha.
  assert (Hb : stamp b = match LineData.time b with TNum n => n | TStr _ => 0%N end)
    by reflexivity.
  destruct (LineData.time b); rewrite Hb in H; simpl; lia.
Qed.

Lemma collapseFrom_increasing (l : list LineData.t) (prev : N) :
  Forall isNum l -> StronglySorted stampLe l ->
  Forall (fun p => (prev <= stamp p)%N) l ->
  StronglySorted keyLt (collapseFrom (TNum prev) l)
  /\ Forall (fun p => (prev < stamp p)%N) (collapseFrom (TNum prev) l).
Proof.
  intros Hn Hs. revert prev.
  induction Hs as [|p r Hr IH Hp]; intros prev Hprev; simpl.
  - split; constructor.
  - inversion Hn as [|? ? Hnp Hnr]; subst.
    inversion Hprev as [|? ? Hpp Hpr]; subst.
    destruct (IH Hnr (stamp p) Hp) as [IHs IHf].
    rewrite Hnp. simpl.
    destruct (N.eqb_spec (stamp p) prev) as [E|Hne].
    + rewrite <- E. now split.
    + split.
      * constructor; [exact IHs|].
        eapply Forall_impl; [|exact IHf].
        intros b Hb. now apply lt_of_stamp.
      * constructor; [lia|].
        eapply Forall_impl; [|exact IHf]. intros; simpl in *; lia.
Qed.

Lemma collapse_increasing (l : list LineData.t) :
  Forall isNum l -> StronglySorted stampLe l -> StronglySorted keyLt (collapse l).
Proof.
  intros Hn Hs. destruct l as [|p r]; simpl; [constructor|].
  inversion Hn as [|? ? Hnp Hnr]; subst. inversion Hs as [|? ? Hr Hp]; subst.
  rewrite Hnp.
  destruct (collapseFrom_increasing r (stamp p) Hnr Hr Hp) as [Hs' Hf].
  constructor; [exact Hs'|].
  eapply Forall_impl; [|exact Hf].
  intros b Hb. now apply lt_of_stamp.
Qed.

Lemma toTime_digits (s : string) :
  digitsOnly s = true -> toTime s = TNum (Number s).
Proof. unfold toTime. now intros ->. Qed.

Lemma timestamps_isNum (lastBar : OHLCVBar.t)
  (prediction : list PredictionPoint.t) (f : PredictionPoint.t -> bool) :
  timestamps lastBar prediction ->
  Forall isNum (anchor lastBar :: map asLine (filter f prediction)).
Proof.
  intros [Hb Hp]. constructor.
  - unfold isNum, stamp, anchor. simpl. now rewrite (toTime_digits _ Hb).
  - apply Forall_map. apply Forall_forall. intros p Hin.
    apply filter_In in Hin. destruct Hin as [Hin _].
    rewrite Forall_forall in Hp. specialize (Hp p Hin).
    unfold isNum, stamp, asLine. simpl. now rewrite (toTime_digits _ Hp).
Qed.

Lemma stitch_increasing (lastBar : OHLCVBar.t)
  (prediction : list PredictionPoint.t) :
  timestamps lastBar prediction ->
  StronglySorted keyLt (stitch lastBar prediction).
Proof.
  intros H. rewrite stitch_collapse_sort.
  apply collapse_increasing.
  - apply sort_Forall. now apply timestamps_isNum.
  - apply sort_sorted. now apply timestamps_isNum.
Qed.

End Stitcher.

Section StitcherContract.

Lemma StronglySorted_weaken {X : Type} (R S : X -> X -> Prop) (l : list X) :
  (forall a b, R a b -> S a b) -> StronglySorted R l -> StronglySorted S l.
Proof.
  intros HRS. induction 1 as [|x r Hr IH Hx]; constructor; auto.
  eapply Forall_impl; [|exact Hx]. auto.
Qed.

Lemma keyLt_not_after (a b : LineData.t) :
  keyLt a b -> goesAfter (byTime a b) = false.
Proof.
  unfold keyLt, byTime.
  destruct (LineData.time a), (LineData.time b); simpl; try reflexivity.
  intros H. apply Z.ltb_ge. lia.
Qed.

Lemma collapseFrom_id (p : LineData.t) (r : list LineData.t) :
  StronglySorted keyLt (p :: r) -> collapseFrom (LineData.time p) r = r.
Proof.
  revert p. induction r as [|q r' IH]; intros p H; simpl; [reflexivity|].
  inversion H as [|? ? Hr Hp]; subst. inversion Hp as [|? ? Hpq _]; subst.
  rewrite (Time_lt_neq _ _ Hpq). f_equal. now apply IH.
Qed.

Lemma collapse_id (l : list LineData.t) :
  StronglySorted keyLt l -> collapse l = l.
Proof.
  destruct l as [|p r]; simpl; [reflexivity|].
  intros H. f_equal. now apply collapseFrom_id.
Qed.

Lemma times_input (lastBar : OHLCVBar.t) (prediction : list PredictionPoint.t) :
  times (anchor lastBar :: map asLine prediction)
  = map toTime (OHLCVBar.date lastBar :: map PredictionPoint.date prediction).
Proof. unfold times. simpl. now rewrite !map_map. Qed.

(** Contract inputs pass through the stitcher unchanged behind the anchor. *)
Lemma stitch_contract (lastBar : OHLCVBar.t)
  (prediction : list PredictionPoint.t) :
  afterLastBar lastBar prediction ->
  stitch lastBar prediction = anchor lastBar :: map asLine prediction.
Proof.
  intros [_ Hs]. rewrite stitch_collapse_sort.
  rewrite <- times_input in Hs. unfold times in Hs.
  apply (StronglySorted_map LineData.time Time_lt) in Hs. fold keyLt in Hs.
  assert (Hf : filter (fun p => negb (String.eqb (PredictionPoint.date p)
                                                 (OHLCVBar.date lastBar)))
                      prediction = prediction).
  { apply forallb_filter_id, forallb_forall. intros p Hin.
    inversion Hs as [|? ? _ Ha]; subst.
    rewrite Forall_map in Ha. rewrite Forall_forall in Ha.
    specialize (Ha p Hin). unfold keyLt, anchor, asLine in Ha. simpl in Ha.
    destruct (String.eqb_spec (PredictionPoint.date p) (OHLCVBar.date lastBar))
      as [E|]; [|reflexivity].
    rewrite E in Ha. now apply Time_lt_irrefl in Ha. }
  rewrite Hf, sort_id.
  - now apply collapse_id.
  - eapply StronglySorted_weaken; [|exact Hs]. apply keyLt_not_after.
Qed.

(** With timestamp keys, the anchor stays first when no prediction point is
    earlier than the last bar. *)
Lemma stitch_anchor_first (lastBar : OHLCVBar.t)
  (prediction : list PredictionPoint.t) :
  timestamps lastBar prediction ->
  Forall (fun p => (Number (OHLCVBar.date lastBar)
                    <= Number (PredictionPoint.date p))%N) prediction ->
  hd_error (stitch lastBar prediction) = Some (anchor lastBar).
Proof.
  intros [Hb Hp] Hge. rewrite stitch_collapse_sort, sort_head; [reflexivity|].
  apply Forall_map, Forall_forall. intros p Hin.
  apply filter_In in Hin. destruct Hin as [Hin _].
  rewrite Forall_forall in Hp, Hge.
  specialize (Hp p Hin). specialize (Hge p Hin).
  unfold byTime, anchor, asLine. simpl.
  rewrite (toTime_digits _ Hb), (toTime_digits _ Hp). simpl.
  apply Z.ltb_ge. lia.
Qed.

(** C1, as amended.  The stitched line is the stable sort, by time key, of
    the anchor and the prediction points not dated like the last bar, with
    each run of equal keys collapsed to its first point.  When all keys are
    timestamps the line is non-decreasing in time key, has no two adjacent
    equal keys, and begins with the anchor (so its first value is the last
    bar's close) provided no prediction point is earlier than the last bar.
    When the dates are well formed and strictly increasing from the last
    bar on, the line is the anchor followed by every prediction point. *)
Theorem stitch_sorted_collapsed (lastBar : OHLCVBar.t)
  (prediction : list PredictionPoint.t) :
  stitch lastBar prediction
  = collapse
      (sort byTime
         (anchor lastBar
          :: map asLine
               (filter (fun p => negb (String.eqb (PredictionPoint.date p)
                                                  (OHLCVBar.date lastBar)))
                       prediction)))
  /\ (timestamps lastBar prediction ->
      nonDecreasing (stitch lastBar prediction)
      /\ noAdjacentEqual (stitch lastBar prediction)
      /\ (Forall (fun p => (Number (OHLCVBar.date lastBar)
                            <= Number (PredictionPoint.date p))%N) prediction ->
          hd_error (stitch lastBar prediction) = Some (anchor lastBar)
          /\ option_map LineData.value (hd_error (stitch lastBar prediction))
             = Some (OHLCVBar.close lastBar)))
  /\ (afterLastBar lastBar prediction ->
      stitch lastBar prediction = anchor lastBar :: map asLine prediction).
Proof.
  split; [apply stitch_collapse_sort|]. split.
  - intros H. pose proof (stitch_increasing lastBar prediction H) as Hs.
    split; [|split].
    + apply Sorted_times; [|exact Hs]. intros a b Hab. now left.
    + apply Sorted_times; [|exact Hs].
      intros a b Hab ->. now apply Time_lt_irrefl in Hab.
    + intros Hge. rewrite (stitch_anchor_first lastBar prediction H Hge).
      now split.
  - apply stitch_contract.
Qed.

(** The end-to-end example of the specification: bars [{t:1, close:100}]
    with predictions [{t:2, value:102}, {t:3, value:105}]. *)
Lemma stitch_sorted_collapsed_witness :
  let lastBar := OHLCVBar.mk "1" 100 100 100 100 0 in
  let prediction := [PredictionPoint.mk "2" 102; PredictionPoint.mk "3" 105] in
  stitch lastBar prediction
  = [LineData.mk (TNum 1) 100; LineData.mk (TNum 2) 102; LineData.mk (TNum 3) 105]
  /\ nonDecreasing (stitch lastBar prediction)
  /\ noAdjacentEqual (stitch lastBar prediction)
  /\ option_map LineData.value (hd_error (stitch lastBar prediction)) = Some 100.
Proof.
  intros lastBar prediction.
  destruct (stitch_sorted_collapsed lastBar prediction) as (_ & Hnum & Hafter).
  assert (Ht : timestamps lastBar prediction).
  { split; [reflexivity|]. repeat constructor. }
  assert (Ha : afterLastBar lastBar prediction).
  { split; [repeat constructor|].
    repeat (constructor; [|repeat constructor; reflexivity]). constructor. }
  destruct (Hnum Ht) as (Hnd & Hna & Hfirst).
  split; [exact (Hafter Ha)|]. split; [exact Hnd|]. split; [exact Hna|].
  apply Hfirst. repeat constructor; vm_compute; discriminate.
Defined.

(** C1, as claimed, fails: with the last bar at time 5 and predictions at
    times 3, 7 and 7, the sort puts the point at 3 before the anchor and the
    collapse drops the second point at 7. *)
Lemma stitch_not_as_claimed :
  let lastBar := OHLCVBar.mk "5" 100 100 100 100 0 in
  let prediction :=
    [PredictionPoint.mk "3" 90; PredictionPoint.mk "7" 110;
     PredictionPoint.mk "7" 120] in
  stitch lastBar prediction
  = [LineData.mk (TNum 3) 90; LineData.mk (TNum 5) 100; LineData.mk (TNum 7) 110]
  /\ ~ stitchedAsClaimed lastBar prediction.
Proof.
  intros lastBar prediction. split; [reflexivity|].
  intros (_ & _ & _ & H). vm_compute in H. discriminate.
Qed.

End StitcherContract.

(** ** The chart effect *)

Section Panes.

Lemma at_last {A : Type} (x : A) (l : list A) :
  exists b, at_ (x :: l) (Z.of_nat (List.length (x :: l)) - 1) = Ok b.
Proof.
  unfold at_.
  destruct (Z.ltb_spec (Z.of_nat (List.length (x :: l)) - 1) 0) as [H|_].
  - simpl List.length in H. lia.
  - destruct (nth_error (x :: l) _) as [b|] eqn:E; [now exists b|].
    apply nth_error_None in E. simpl List.length in E. lia.
Qed.

Lemma hasLength_true {A : Type} (l : list A) : hasLength l = true <-> l <> [].
Proof. destruct l; cbn; split; intros H; congruence. Qed.

Lemma overlaySeries_ok (x : OHLCVBar.t) (data : list OHLCVBar.t)
  (ov : ChartOverlays.t) (active : Active.t) :
  exists extra, overlaySeries (x :: data) ov active = Ok extra.
Proof.
  unfold overlaySeries. destruct (at_last x data) as [b ->].
  destruct (Active.prediction active && hasLength (ChartOverlays.prediction ov));
    simpl; eauto.
Qed.

(** The chart effect never throws: it reads the last bar only behind its
    guard on [data.length]. *)
Lemma effect_total (pc mc : option N) (data : list OHLCVBar.t)
  (overlays : option ChartOverlays.t) (active : Active.t) (refs : Refs.t) :
  exists refs', effect pc mc data overlays active refs = Ok refs'.
Proof.
  unfold effect. destruct pc as [w|]; [|eauto].
  destruct data as [|x data]; [simpl; eauto|].
  cbn [List.length Nat.eqb].
  destruct overlays as [ov|].
  - destruct (overlaySeries_ok x data ov active) as [extra ->]. simpl. eauto.
  - simpl. eauto.
Qed.

(** What the effect leaves in [macdChartRef]. *)
Lemma effect_macdChartRef (w : N) (mc : option N) (x : OHLCVBar.t)
  (data : list OHLCVBar.t) (overlays : option ChartOverlays.t)
  (active : Active.t) (refs refs' : Refs.t) :
  effect (Some w) mc (x :: data) overlays active refs = Ok refs' ->
  Refs.macdChartRef refs'
  = match overlays, mc with
    | Some ov, Some mw =>
        if Active.macd active && hasLength (ChartOverlays.macd ov)
        then Some (macdChart mw (digitsOnly (OHLCVBar.date x)) (ChartOverlays.macd ov))
        else None
    | _, _ => None
    end.
Proof.
  unfold effect. cbn [List.length Nat.eqb nth_error].
  destruct overlays as [ov|].
  - destruct (overlaySeries_ok x data ov active) as [extra ->]. simpl.
    now intros [= <-].
  - simpl. now intros [= <-].
Qed.

(** What the effect leaves in [priceChartRef]. *)
Lemma effect_priceChartRef (w : N) (mc : option N) (x : OHLCVBar.t)
  (data : list OHLCVBar.t) (overlays : option ChartOverlays.t)
  (active : Active.t) (refs refs' : Refs.t) :
  effect (Some w) mc (x :: data) overlays active refs = Ok refs' ->
  exists extra,
    match overlays with
    | Some ov => overlaySeries (x :: data) ov active
    | None => Ok []
    end = Ok extra
    /\ Refs.priceChartRef refs'
       = Some (Chart.mk w 420 (digitsOnly (OHLCVBar.date x))
                 ([Candlestick (candleData (x :: data));
                   Histogram (volumeData (x :: data))] ++ extra)
                 (defaultRange (Z.of_nat (List.length (x :: data))))).
Proof.
  unfold effect. cbn [List.length Nat.eqb nth_error].
  destruct overlays as [ov|].
  - destruct (overlaySeries_ok x data ov active) as [extra ->]. simpl.
    intros [= <-]. exists extra. split; [reflexivity|]. simpl.
    unfold candleData. now rewrite length_map.
  - simpl. intros [= <-]. exists []. split; [reflexivity|]. simpl.
    unfold candleData. now rewrite length_map.
Qed.

(** A render with bars never throws. *)
Lemma render_total (w : N) (x : OHLCVBar.t) (data : list OHLCVBar.t)
  (overlays : option ChartOverlays.t) (active : Active.t) (refs : Refs.t) :
  exists b refs',
    render w (x :: data) overlays active refs = Ok (b, refs')
    /\ effect (Some w)
         (if macdContainerShown overlays active then Some w else None)
         (x :: data) overlays active (cleanup refs) = Ok refs'.
Proof.
  unfold render.
  assert (Hb : exists b, banner (x :: data) overlays active = Ok b).
  { unfold banner. destruct overlays as [ov|]; [|eauto].
    destruct (at_last x data) as [b ->].
    destruct (Active.prediction active && truthy _); simpl; eauto. }
  destruct Hb as [b ->]. cbn [bind].
  destruct (effect_total (Some w)
              (if macdContainerShown overlays active then Some w else None)
              (x :: data) overlays active (cleanup refs)) as [refs' E].
  rewrite E. cbn [bind]. eauto.
Qed.

End Panes.

Section PaneClaims.

(** C7, as amended.  A render with bars creates the oscillator pane exactly
    when the oscillator overlay is toggled visible and the payload's raw
    oscillator list is non-empty, whatever the fast-line values are; a
    render without bars creates no pane at all. *)
Theorem oscillator_pane_gate (w : N) (data : list OHLCVBar.t)
  (overlays : option ChartOverlays.t) (active : Active.t) (refs : Refs.t) :
  (data <> [] ->
   exists b refs',
     render w data overlays active refs = Ok (b, refs')
     /\ (Refs.macdChartRef refs' <> None
         <-> Active.macd active = true
             /\ exists ov, overlays = Some ov /\ ChartOverlays.macd ov <> []))
  /\ (data = [] ->
      forall b refs',
        render w data overlays active refs = Ok (b, refs') ->
        Refs.priceChartRef refs' = None /\ Refs.macdChartRef refs' = None).
Proof.
  split.
  - intros Hd. destruct data as [|x data]; [congruence|].
    destruct (render_total w x data overlays active refs) as (b & refs' & Hr & He).
    exists b, refs'. split; [exact Hr|].
    rewrite (effect_macdChartRef _ _ _ _ _ _ _ _ He).
    unfold macdContainerShown. destruct overlays as [ov|].
    + destruct (Active.macd active); simpl.
      * destruct (hasLength (ChartOverlays.macd ov)) eqn:E; simpl.
        -- apply hasLength_true in E. split; [|discriminate].
           intros _. split; [reflexivity|]. now exists ov.
        -- split; [congruence|]. intros (_ & ov' & [= <-] & Hne).
           apply hasLength_true in Hne. congruence.
      * split; [congruence|]. intros [H _]. discriminate.
    + split; [congruence|]. intros (_ & ov' & H & _). discriminate.
  - intros -> b refs'. unfold render.
    destruct (banner [] overlays active) as [b0|e]; cbn; [|discriminate].
    now intros [= _ <-].
Qed.

Lemma oscillator_pane_gate_witness :
  let data := [OHLCVBar.mk "2024-01-02" 10 12 9 11 1000] in
  let ov :=
    ChartOverlays.mk [] [] [] [MACDPoint.mk "2024-01-02" (Some 1) None None]
                     [] "up" None in
  (exists b refs',
     render 800 data (Some ov) initialActive (Refs.mk None None) = Ok (b, refs')
     /\ Refs.macdChartRef refs' <> None)
  /\ (forall b refs',
        render 800 [] None initialActive (Refs.mk None None) = Ok (b, refs') ->
        Refs.priceChartRef refs' = None /\ Refs.macdChartRef refs' = None).
Proof.
  intros data ov. split.
  - destruct (oscillator_pane_gate 800 data (Some ov) initialActive
                (Refs.mk None None)) as [H _].
    destruct (H ltac:(discriminate)) as (b & refs' & Hr & Hiff).
    exists b, refs'. split; [exact Hr|].
    apply Hiff. split; [reflexivity|].
    exists ov. split; [reflexivity|discriminate].
  - destruct (oscillator_pane_gate 800 [] None initialActive
                (Refs.mk None None)) as [_ H].
    exact (H eq_refl).
Defined.

(** C7, as claimed, fails: a payload whose only oscillator point has no
    fast-line value still gets an oscillator pane. *)
Lemma oscillator_pane_without_fast_line :
  let data := [OHLCVBar.mk "2024-01-02" 10 12 9 11 1000] in
  let ov :=
    ChartOverlays.mk [] [] [] [MACDPoint.mk "2024-01-02" None None None]
                     [] "up" None in
  exists b refs',
    render 800 data (Some ov) initialActive (Refs.mk None None) = Ok (b, refs')
    /\ fastLine (ChartOverlays.macd ov) = []
    /\ Refs.macdChartRef refs' <> None
    /\ ~ oscillatorGateAsClaimed data ov initialActive refs'.
Proof.
  intros data ov. eexists. eexists. split; [reflexivity|].
  split; [reflexivity|]. split; [cbv; discriminate|].
  intros [H _]. destruct H as [_ H]; [cbv; discriminate|]. now apply H.
Qed.

(** C8.  With all five overlay keys false a render never throws and creates
    no oscillator pane, and the price pane, which exists whenever the payload
    has bars, holds exactly two series: the candlesticks and the volume
    histogram. *)
Theorem hidden_overlays_two_series (w : N) (data : list OHLCVBar.t)
  (overlays : option ChartOverlays.t) (refs : Refs.t) :
  exists refs',
    render w data overlays allHidden refs = Ok (None, refs')
    /\ Refs.macdChartRef refs' = None
    /\ match Refs.priceChartRef refs' with
       | Some chart =>
           Chart.series chart
           = [Candlestick (candleData data); Histogram (volumeData data)]
       | None => data = []
       end.
Proof.
  destruct overlays as [ov|], data as [|x data];
    eexists; (split; [reflexivity|]); split; reflexivity.
Qed.

Lemma filter_seq_from (a n : nat) (from to : Z) :
  (a <= n)%nat -> from = Z.of_nat a -> Z.of_nat n <= to ->
  filter (fun i => (from <=? Z.of_nat i) && (Z.of_nat i <=? to)) (seq 0 n)
  = seq a (n - a).
Proof.
  intros Han -> Hto.
  replace n with (a + (n - a))%nat at 1 by lia.
  rewrite seq_app, filter_app. simpl.
  replace (filter _ (seq 0 a)) with (@nil nat).
  - simpl. apply forallb_filter_id, forallb_forall. intros i Hi.
    apply in_seq in Hi. apply andb_true_iff. split; apply Z.leb_le; lia.
  - symmetry. rewrite <- (filter_false (seq 0 a)). apply filter_ext_in.
    intros i Hi. apply in_seq in Hi. apply andb_false_iff. left.
    apply Z.leb_gt. lia.
Qed.

(** The default window shows the last min(120, n) of n items. *)
Lemma shown_defaultRange (n : nat) :
  shown n (defaultRange (Z.of_nat n)) = lastBars (Nat.min 120 n) n.
Proof.
  unfold defaultRange, lastBars.
  destruct (Z.ltb_spec (Z.min 120 (Z.of_nat n)) (Z.of_nat n)) as [H|H]; simpl shown.
  - rewrite (filter_seq_from (n - 120) n); try lia.
    f_equal; lia.
  - replace (Nat.min 120 n) with n by lia. now rewrite Nat.sub_diag.
Qed.

(** C9.  A render of a payload with n > 0 bars leaves the price pane on the
    default window of n items, which shows the most recent min(120, n) bars
    (all of them when n <= 120); the oscillator pane, when created, gets the
    default window of its own count of points with a fast-line value. *)
Theorem default_window (w : N) (data : list OHLCVBar.t)
  (overlays : option ChartOverlays.t) (active : Active.t) (refs : Refs.t) :
  data <> [] ->
  exists b price macdRef,
    render w data overlays active refs = Ok (b, Refs.mk (Some price) macdRef)
    /\ Chart.visibleRange price = defaultRange (Z.of_nat (List.length data))
    /\ shown (List.length data) (Chart.visibleRange price)
       = lastBars (Nat.min 120 (List.length data)) (List.length data)
    /\ forall oscillator, macdRef = Some oscillator ->
       exists ov,
         overlays = Some ov
         /\ let k := List.length (fastLine (ChartOverlays.macd ov)) in
            Chart.visibleRange oscillator = defaultRange (Z.of_nat k)
            /\ shown k (Chart.visibleRange oscillator)
               = lastBars (Nat.min 120 k) k.
Proof.
  intros Hd. destruct data as [|x data]; [congruence|].
  destruct (render_total w x data overlays active refs) as (b & refs' & Hr & He).
  pose proof (effect_macdChartRef _ _ _ _ _ _ _ _ He) as Hm.
  destruct (effect_priceChartRef _ _ _ _ _ _ _ _ He) as (extra & _ & Hp).
  destruct refs' as [pr mr]. simpl in Hm, Hp. subst pr.
  eexists b, _, mr. split; [exact Hr|]. split; [reflexivity|].
  cbn [Chart.visibleRange]. split; [apply shown_defaultRange|].
  intros oscillator Ho. subst mr.
  destruct overlays as [ov|]; [|discriminate]. exists ov. split; [reflexivity|].
  destruct (if macdContainerShown (Some ov) active then Some w else None)
    as [mw|]; [|discriminate].
  destruct (Active.macd active && hasLength (ChartOverlays.macd ov));
    [|discriminate].
  injection Ho as <-. unfold macdChart. cbn [Chart.visibleRange].
  unfold fastLine, lineData. rewrite length_map.
  split; [reflexivity|apply shown_defaultRange].
Qed.

(** Switching from 130 daily bars to 40 weekly bars: the second render shows
    all 40 bars. *)
Lemma default_window_witness :
  let bar := OHLCVBar.mk "2024-01-02" 10 12 9 11 1000 in
  let daily := repeat bar 130 in
  let weekly := repeat bar 40 in
  exists b1 refs1 b2 price macdRef,
    render 800 daily None initialActive (Refs.mk None None) = Ok (b1, refs1)
    /\ option_map Chart.visibleRange (Refs.priceChartRef refs1)
       = Some (LogicalRange 10 130)
    /\ render 800 weekly None initialActive refs1
       = Ok (b2, Refs.mk (Some price) macdRef)
    /\ shown 40 (Chart.visibleRange price) = seq 0 40
    /\ let ov :=
         ChartOverlays.mk [] [] []
           [MACDPoint.mk "2024-01-01" None None None;
            MACDPoint.mk "2024-01-02" (Some 1) None None] [] "up" None in
       exists b3 price3 oscillator,
         render 800 [bar] (Some ov) initialActive refs1
         = Ok (b3, Refs.mk (Some price3) (Some oscillator))
         /\ shown 1 (Chart.visibleRange oscillator) = [0%nat].
Proof.
  intros bar daily weekly.
  destruct (render_total 800 bar (repeat bar 129) None initialActive
              (Refs.mk None None)) as (b1 & refs1 & Hr1 & He1).
  destruct (effect_priceChartRef _ _ _ _ _ _ _ _ He1) as (extra & _ & Hp1).
  destruct (default_window 800 weekly None initialActive refs1
              ltac:(discriminate)) as (b2 & price & macdRef & Hr2 & _ & Hs & _).
  exists b1, refs1, b2, price, macdRef.
  split; [exact Hr1|]. split; [now rewrite Hp1|]. split; [exact Hr2|].
  split; [exact Hs|]. intros ov.
  destruct (default_window 800 [bar] (Some ov) initialActive refs1
              ltac:(discriminate)) as (b3 & price3 & macdRef3 & Hr3 & _ & _ & Hm).
  destruct macdRef3 as [oscillator|]; [|cbv in Hr3; discriminate].
  exists b3, price3, oscillator. split; [exact Hr3|].
  destruct (Hm oscillator eq_refl) as (ov' & Hov & _ & Hk).
  injection Hov as <-. exact Hk.
Defined.

(** C10 fails on the code: the prediction banner of the JSX reads
    [data[data.length - 1].close] with no guard on the bar list.  On an
    empty bar list with a prediction target and the prediction overlay
    visible (the initial toggle state), evaluating the banner throws, and so
    does the render; the chart effect itself is guarded and never throws. *)
Theorem banner_reads_missing_last_bar :
  let ov := ChartOverlays.mk [] [] [] [] [] "up" (Some 150) in
  banner [] (Some ov) initialActive
  = Throw (TypeError "Cannot read properties of undefined")
  /\ (forall w refs,
        render w [] (Some ov) initialActive refs
        = Throw (TypeError "Cannot read properties of undefined"))
  /\ (forall pc mc data overlays active refs,
        exists refs', effect pc mc data overlays active refs = Ok refs').
Proof.
  intros ov. split; [reflexivity|]. split; [reflexivity|].
  intros. apply effect_total.
Qed.

End PaneClaims.

(** ** The page: searches, refreshes and the timer *)

Section Page.

Import Home.

Lemma run_invariant (P : State.t -> Prop) :
  (forall s e, P s -> P (step s e)) ->
  forall events s, P s -> P (run s events).
Proof.
  intros Hstep events. induction events as [|e r IH]; intros s Hs; simpl.
  - exact Hs.
  - apply IH. now apply Hstep.
Qed.

Lemma silentRefresh_consistent (s : State.t) :
  consistent s -> consistent (silentRefresh s).
Proof.
  unfold consistent, silentRefresh. intros [Hp Ht].
  destruct (negb (nonEmpty (Params.ticker (State.latestParamsRef s))));
    simpl; now split.
Qed.

Lemma step_consistent (s : State.t) (e : Event) :
  consistent s -> consistent (step s e).
Proof.
  intros H. pose proof H as [Hp Ht]. destruct e; simpl.
  - now split.
  - now split.
  - destruct (refreshButtonEnabled s); [|exact H].
    now apply silentRefresh_consistent.
  - destruct (nonEmpty (State.currentTicker s)); [|exact H]. now split.
  - destruct (State.refreshTimer s); [|exact H].
    now apply silentRefresh_consistent.
  - destruct (nth_error (State.pending s) i) as [q|]; [|now split].
    destruct (Request.caller q), r; simpl; now split.
Qed.

Lemma reachable_consistent (events : list Event) :
  consistent (run initial events).
Proof.
  apply run_invariant; [apply step_consistent|]. now split.
Qed.

Lemma skipn_app_length {A : Type} (l r : list A) :
  skipn (List.length l) (l ++ r) = r.
Proof. induction l; simpl; auto. Qed.

Lemma nonEmpty_true (t : string) : nonEmpty t = true <-> t <> "".
Proof.
  unfold nonEmpty. destruct (String.eqb_spec t ""); simpl; split; congruence.
Qed.

(** A timer tick in a state whose interval is armed and whose ref holds a
    ticker issues one more call, whatever is already in flight. *)
Lemma tick_issues (s : State.t) :
  State.refreshTimer s = true ->
  Params.ticker (State.latestParamsRef s) <> "" ->
  step s TimerFires
  = State.mk (State.analysis s) (State.isLoading s) (State.error s)
      (State.currentTicker s) (State.activePeriod s) (State.activeInterval s)
      (State.autoRefresh s) (State.lastRefreshed s) true (State.refreshTimer s)
      (State.latestParamsRef s)
      (State.pending s ++ [Request.mk SilentRefresh (State.latestParamsRef s)]).
Proof.
  intros Ht Hn. simpl. rewrite Ht. unfold silentRefresh.
  apply nonEmpty_true in Hn. rewrite Hn. simpl. now rewrite Ht.
Qed.

Lemma no_search_no_ticker (events : list Event) (s : State.t) :
  State.currentTicker s = "" ->
  forallb (fun e => negb (isSearch e)) events = true ->
  State.currentTicker (run s events) = "".
Proof.
  revert s. induction events as [|e r IH]; intros s Hs Hall; simpl in *.
  - exact Hs.
  - apply andb_true_iff in Hall. destruct Hall as [He Hr].
    apply IH; [|exact Hr].
    destruct e; simpl in *; try discriminate.
    + unfold refreshButtonEnabled. now rewrite Hs.
    + now rewrite Hs.
    + destruct (State.refreshTimer s); [|exact Hs].
      unfold silentRefresh. now destruct (nonEmpty _).
    + destruct (nth_error (State.pending s) i) as [q|]; [|exact Hs].
      now destruct (Request.caller q), r0.
Qed.

End Page.

Section PageClaims.

Import Home.

Lemma issued_tick (s : State.t) :
  consistent s ->
  State.autoRefresh s = true -> State.currentTicker s <> "" ->
  step s TimerFires
  = State.mk (State.analysis s) (State.isLoading s) (State.error s)
      (State.currentTicker s) (State.activePeriod s) (State.activeInterval s)
      (State.autoRefresh s) (State.lastRefreshed s) true (State.refreshTimer s)
      (State.latestParamsRef s)
      (State.pending s ++ [Request.mk SilentRefresh (State.latestParamsRef s)]).
Proof.
  intros [Hp Ht] Ha Hc. apply tick_issues.
  - rewrite Ht, Ha. simpl. now apply nonEmpty_true.
  - now rewrite Hp.
Qed.

Lemma armed_has_ticker (s : State.t) :
  consistent s -> State.refreshTimer s = true ->
  State.autoRefresh s = true /\ State.currentTicker s <> "".
Proof.
  intros [_ Ht] H. rewrite Ht in H. apply andb_true_iff in H.
  destruct H as [Ha Hn]. split; [exact Ha|now apply nonEmpty_true].
Qed.

(** C2, as amended.  In every state the page can reach: a click on the
    refresh button while [isRefreshing] is true issues no request and
    changes nothing; a timer tick is not guarded, so whenever the interval
    is armed it issues one more refresh for the latest parameters, on top of
    the refreshes already in flight; and the button, when enabled, does what
    the tick does, both setting the one [isRefreshing] flag. *)
Theorem click_guarded_tick_unguarded (events : list Event) :
  let s := run initial events in
  (State.isRefreshing s = true -> step s ClickRefresh = s)
  /\ (State.refreshTimer s = true ->
      issued s TimerFires = [Request.mk SilentRefresh (State.latestParamsRef s)]
      /\ refreshesInFlight (step s TimerFires)
         = refreshesInFlight s
           ++ [Request.mk SilentRefresh (State.latestParamsRef s)]
      /\ State.isRefreshing (step s TimerFires) = true)
  /\ (State.refreshTimer s = true -> refreshButtonEnabled s = true ->
      step s ClickRefresh = step s TimerFires).
Proof.
  intros s. pose proof (reachable_consistent events) as Hc. fold s in Hc.
  split; [|split].
  - intros H. simpl. unfold refreshButtonEnabled. rewrite H.
    now rewrite andb_false_r.
  - intros Ht. destruct (armed_has_ticker s Hc Ht) as [Ha Hn].
    unfold issued, refreshesInFlight. rewrite (issued_tick s Hc Ha Hn). simpl.
    rewrite skipn_app_length, filter_app. now split.
  - intros Ht Hb. simpl. now rewrite Ht, Hb.
Qed.

Lemma click_guarded_tick_unguarded_witness :
  let s := run initial [Search "AAPL" "2y" "1d"; Settles 0 (Resolved aapl) 1;
                        ClickRefresh] in
  let s0 := run initial [Search "AAPL" "2y" "1d"; Settles 0 (Resolved aapl) 1] in
  step s ClickRefresh = s
  /\ List.length (refreshesInFlight (step s TimerFires)) = 2%nat
  /\ step s0 ClickRefresh = step s0 TimerFires.
Proof.
  intros s s0.
  destruct (click_guarded_tick_unguarded
              [Search "AAPL" "2y" "1d"; Settles 0 (Resolved aapl) 1; ClickRefresh])
    as (Hclick & Htick & _).
  destruct (click_guarded_tick_unguarded
              [Search "AAPL" "2y" "1d"; Settles 0 (Resolved aapl) 1])
    as (_ & _ & Hsame).
  fold s in Hclick, Htick. fold s0 in Hsame. split; [|split].
  - apply Hclick. reflexivity.
  - destruct (Htick eq_refl) as (_ & Hin & _). rewrite Hin. reflexivity.
  - apply Hsame; reflexivity.
Defined.

(** C2, as claimed, fails: after a first load of AAPL, a manual refresh
    followed by a timer tick leaves two refreshes in flight. *)
Lemma two_refreshes_in_flight :
  refreshesInFlight
    (run initial [Search "AAPL" "2y" "1d"; Settles 0 (Resolved aapl) 1;
                  ClickRefresh; TimerFires])
  = [Request.mk SilentRefresh (Params.mk "AAPL" "2y" "1d");
     Request.mk SilentRefresh (Params.mk "AAPL" "2y" "1d")]
  /\ ~ singleRefreshAsClaimed.
Proof.
  split; [reflexivity|]. intros H.
  specialize (H [Search "AAPL" "2y" "1d"; Settles 0 (Resolved aapl) 1;
                 ClickRefresh; TimerFires]).
  vm_compute in H. lia.
Qed.

(** C3, as amended.  A call that resolves has its result applied whatever
    symbol it was issued for: the analysis becomes that result and the
    refresh time the completion time.  A search that is rejected clears the
    analysis and shows its message, again whatever symbol it was for.  The
    code compares no symbols at completion. *)
Theorem settled_result_applied (s : State.t) (i : nat) (q : Request.t)
  (now : N) :
  nth_error (State.pending s) i = Some q ->
  (forall data,
     State.analysis (step s (Settles i (Resolved data) now)) = Some data
     /\ State.lastRefreshed (step s (Settles i (Resolved data) now)) = Some now)
  /\ (forall message,
        Request.caller q = HandleSearch ->
        State.analysis (step s (Settles i (Rejected message) now)) = None
        /\ State.error (step s (Settles i (Rejected message) now))
           = Some message).
Proof.
  intros Hq. split.
  - intros data. simpl. rewrite Hq. now destruct (Request.caller q).
  - intros message Hc. simpl. now rewrite Hq, Hc.
Qed.

Lemma settled_result_applied_witness :
  let s := run initial [Search "AAPL" "2y" "1d"; MarketSelect "TSLA";
                        Settles 1 (Resolved tsla) 5] in
  State.currentTicker s = "TSLA"
  /\ (State.analysis (step s (Settles 0 (Resolved aapl) 9)) = Some aapl
      /\ State.lastRefreshed (step s (Settles 0 (Resolved aapl) 9)) = Some 9%N)
  /\ (State.analysis (step s (Settles 0 (Rejected "Unknown error") 9)) = None
      /\ State.error (step s (Settles 0 (Rejected "Unknown error") 9))
         = Some "Unknown error").
Proof.
  intros s. split; [reflexivity|].
  destruct (settled_result_applied s 0
              (Request.mk HandleSearch (Params.mk "AAPL" "2y" "1d")) 9 eq_refl)
    as [Hok Hfail].
  split; [apply Hok | now apply Hfail].
Defined.

(** C3, as claimed, fails: a search for AAPL still in flight when the user
    picks TSLA overwrites the TSLA analysis when it resolves. *)
Lemma stale_result_applied :
  let s := run initial [Search "AAPL" "2y" "1d"; MarketSelect "TSLA";
                        Settles 1 (Resolved tsla) 5] in
  State.currentTicker s = "TSLA"
  /\ State.analysis s = Some tsla
  /\ State.analysis (step s (Settles 0 (Resolved aapl) 9)) = Some aapl
  /\ ~ staleDroppedAsClaimed.
Proof.
  intros s. repeat (split; [reflexivity|]). intros H.
  specialize (H [Search "AAPL" "2y" "1d"; MarketSelect "TSLA";
                 Settles 1 (Resolved tsla) 5]
                0%nat (Request.mk HandleSearch (Params.mk "AAPL" "2y" "1d"))
                (Resolved aapl) 9%N eq_refl).
  simpl in H. specialize (H ltac:(discriminate)). discriminate.
Qed.

(** C4.  When a call issued by [silentRefresh] is rejected, the page keeps
    its analysis, its last-refresh time and its error (and every other
    field); only [isRefreshing] is reset, and the call leaves the calls in
    flight. *)
Theorem failed_refresh_swallowed (s : State.t) (i : nat) (q : Request.t)
  (message : string) (now : N) :
  nth_error (State.pending s) i = Some q ->
  Request.caller q = SilentRefresh ->
  step s (Settles i (Rejected message) now)
  = State.mk (State.analysis s) (State.isLoading s) (State.error s)
      (State.currentTicker s) (State.activePeriod s) (State.activeInterval s)
      (State.autoRefresh s) (State.lastRefreshed s) false (State.refreshTimer s)
      (State.latestParamsRef s)
      (firstn i (State.pending s) ++ skipn (S i) (State.pending s)).
Proof.
  intros Hq Hc. simpl. now rewrite Hq, Hc.
Qed.

Lemma failed_refresh_swallowed_witness :
  let s := run initial [Search "AAPL" "2y" "1d"; Settles 0 (Resolved aapl) 1;
                        TimerFires] in
  let s' := step s (Settles 0 (Rejected "Failed to analyze AAPL") 61) in
  State.analysis s' = Some aapl
  /\ State.lastRefreshed s' = Some 1%N
  /\ State.error s' = None
  /\ State.isRefreshing s = true
  /\ State.isRefreshing s' = false.
Proof.
  intros s s'. unfold s'.
  rewrite (failed_refresh_swallowed s 0
             (Request.mk SilentRefresh (Params.mk "AAPL" "2y" "1d"))
             "Failed to analyze AAPL" 61 eq_refl eq_refl).
  repeat split.
Defined.

(** C6, as amended.  The refresh is gated on the ticker, not on a
    successful fetch.  Until a search has been started there is no ticker,
    and neither the timer nor the refresh button issues a call.  Once a
    ticker is set, with auto-refresh on, every tick issues a refresh for the
    active ticker, period and interval, whether or not any call for that
    ticker has resolved. *)
Theorem refresh_gated_on_ticker (events : list Event) :
  let s := run initial events in
  (forallb (fun e => negb (isSearch e)) events = true ->
   issued s TimerFires = [] /\ issued s ClickRefresh = [])
  /\ (State.autoRefresh s = true -> State.currentTicker s <> "" ->
      issued s TimerFires
      = [Request.mk SilentRefresh
           (Params.mk (State.currentTicker s) (State.activePeriod s)
                      (State.activeInterval s))]).
Proof.
  intros s. pose proof (reachable_consistent events) as Hc. fold s in Hc.
  split.
  - intros Hno.
    pose proof (no_search_no_ticker events initial eq_refl Hno) as Ht.
    fold s in Ht. destruct Hc as [_ Hr]. unfold issued. simpl.
    unfold refreshButtonEnabled. rewrite Hr, Ht, andb_false_r. simpl.
    now rewrite skipn_all.
  - intros Ha Hn. unfold issued. rewrite (issued_tick s Hc Ha Hn). simpl.
    rewrite skipn_app_length. destruct Hc as [Hp _]. now rewrite Hp.
Qed.

Lemma refresh_gated_on_ticker_witness :
  issued (run initial [ClickAutoRefresh; ClickAutoRefresh]) TimerFires = []
  /\ issued (run initial [Search "AAPL" "2y" "1d";
                          Settles 0 (Rejected "Failed to analyze AAPL") 1])
            TimerFires
     = [Request.mk SilentRefresh (Params.mk "AAPL" "2y" "1d")].
Proof.
  split.
  - apply (refresh_gated_on_ticker [ClickAutoRefresh; ClickAutoRefresh]).
    reflexivity.
  - apply (refresh_gated_on_ticker
             [Search "AAPL" "2y" "1d";
              Settles 0 (Rejected "Failed to analyze AAPL") 1]).
    + reflexivity.
    + discriminate.
Defined.

(** C6, as claimed, fails: the only call ever made for AAPL was rejected,
    yet the next tick issues a refresh for AAPL. *)
Lemma refresh_without_success :
  let events := [Search "AAPL" "2y" "1d";
                 Settles 0 (Rejected "Failed to analyze AAPL") 1] in
  succeeded "AAPL" initial events = false
  /\ issued (run initial events) TimerFires
     = [Request.mk SilentRefresh (Params.mk "AAPL" "2y" "1d")]
  /\ ~ noRefreshBeforeSuccessAsClaimed.
Proof.
  intros events. split; [reflexivity|]. split; [reflexivity|]. intros H.
  specialize (H events TimerFires
                (Request.mk SilentRefresh (Params.mk "AAPL" "2y" "1d"))
                (or_introl eq_refl) eq_refl).
  discriminate.
Qed.

End PageClaims.

(** * Further properties *)

(** ** The overlay toggles and the series of the price chart *)

Section Overlays.

Import Labels.

(** X1.  [toggle key] negates the entry of [key] and keeps the four others;
    toggling the same key twice gives the toggles back, and two toggles
    commute. *)
Theorem toggle_flips_one_key (key k : OverlayKey) (active : Active.t) :
  get (toggle key active) k
  = (if OverlayKey_eqb key k then negb (get active k) else get active k)
  /\ toggle key (toggle key active) = active
  /\ (forall key', toggle key (toggle key' active)
                   = toggle key' (toggle key active)).
Proof.
  destruct active as [a1 a2 a3 a4 a5]. split; [|split].
  - destruct key, k; reflexivity.
  - destruct key; simpl; now rewrite negb_involutive.
  - intros key'. destruct key, key'; reflexivity.
Qed.

(** The overlay series are the contributions of the visible overlays, in
    the fixed order SMA 50, SMA 200, SAR, prediction. *)
Lemma overlaySeries_contributions (x : OHLCVBar.t) (data : list OHLCVBar.t)
  (ov : ChartOverlays.t) (active : Active.t) :
  exists lastBar,
    at_ (x :: data) (Z.of_nat (List.length (x :: data)) - 1) = Ok lastBar
    /\ overlaySeries (x :: data) ov active
       = Ok (contributions active lastBar ov).
Proof.
  destruct (at_last x data) as [lastBar Hl]. exists lastBar.
  split; [exact Hl|].
  unfold overlaySeries. rewrite Hl.
  unfold contributions, priceOverlays, contribution. cbn [flat_map get].
  destruct active as [a1 a2 a3 a4 a5]. cbn [Active.sma50 Active.sma200 Active.sar Active.prediction].
  destruct a1, a2, a3, a4; cbn [andb bind];
    destruct (hasLength (ChartOverlays.sma_50 ov)),
             (hasLength (ChartOverlays.sma_200 ov)),
             (hasLength (ChartOverlays.sar ov)),
             (hasLength (ChartOverlays.prediction ov)); cbn [andb bind];
    try destruct (Nat.ltb 0 _); cbn [bind app]; reflexivity.
Qed.

Lemma contribution_shape (key : OverlayKey) (lastBar : OHLCVBar.t)
  (ov : ChartOverlays.t) :
  contribution key lastBar ov = []
  \/ exists pts, contribution key lastBar ov = [Line (color key) pts].
Proof.
  destruct key; simpl; try (now left).
  - destruct (hasLength _); [right; eauto | now left].
  - destruct (hasLength _); [right; eauto | now left].
  - destruct (_ && _); [right; eauto | now left].
  - destruct (hasLength _); [right; eauto | now left].
Qed.

(** What a render with bars leaves in the two refs. *)
Lemma render_charts (w : N) (x : OHLCVBar.t) (data : list OHLCVBar.t)
  (overlays : option ChartOverlays.t) (active : Active.t) (refs : Refs.t) :
  exists b lastBar,
    at_ (x :: data) (Z.of_nat (List.length (x :: data)) - 1) = Ok lastBar
    /\ render w (x :: data) overlays active refs
       = Ok (b,
             Refs.mk
               (Some (Chart.mk w 420 (digitsOnly (OHLCVBar.date x))
                        ([Candlestick (candleData (x :: data));
                          Histogram (volumeData (x :: data))]
                         ++ match overlays with
                            | Some ov => contributions active lastBar ov
                            | None => []
                            end)
                        (defaultRange (Z.of_nat (List.length (x :: data))))))
               (match overlays with
                | Some ov =>
                    if Active.macd active && hasLength (ChartOverlays.macd ov)
                    then Some (macdChart w (digitsOnly (OHLCVBar.date x))
                                         (ChartOverlays.macd ov))
                    else None
                | None => None
                end)).
Proof.
  destruct (render_total w x data overlays active refs)
    as (b & refs' & Hr & He).
  pose proof (effect_macdChartRef _ _ _ _ _ _ _ _ He) as Hm.
  destruct (effect_priceChartRef _ _ _ _ _ _ _ _ He) as (extra & Hx & Hp).
  destruct (at_last x data) as [lastBar Hl].
  exists b, lastBar. split; [exact Hl|].
  rewrite Hr. destruct refs' as [pr mr]. simpl in Hm, Hp. subst pr mr.
  do 2 f_equal. f_equal.
  - do 2 f_equal. destruct overlays as [ov|].
    + destruct (overlaySeries_contributions x data ov active)
        as (lastBar' & Hl' & Hc).
      rewrite Hl in Hl'. injection Hl' as <-. rewrite Hc in Hx.
      now injection Hx as <-.
    + now injection Hx as <-.
  - unfold macdContainerShown. destruct overlays as [ov|]; [|reflexivity].
    now destruct (Active.macd active && hasLength (ChartOverlays.macd ov)).
Qed.

End Overlays.

Section StitchedLine.

Lemma insert_length {A : Type} (cmp : A -> A -> option Z) (x : A) (l : list A) :
  List.length (insert cmp x l) = S (List.length l).
Proof.
  induction l as [|y r IH]; simpl; [reflexivity|].
  destruct (goesAfter (cmp x y)); simpl; now rewrite ?IH.
Qed.

Lemma sort_length {A : Type} (cmp : A -> A -> option Z) (l : list A) :
  List.length (sort cmp l) = List.length l.
Proof.
  induction l as [|x r IH]; simpl; [reflexivity|].
  fold (sort cmp r). now rewrite insert_length, IH.
Qed.

Lemma collapseFrom_Forall (P : LineData.t -> Prop) (prev : Time)
  (l : list LineData.t) :
  Forall P l -> Forall P (collapseFrom prev l).
Proof.
  intros H. revert prev. induction H as [|p r Hp Hr IH]; intros prev; simpl.
  - constructor.
  - destruct (Time_eqb (LineData.time p) prev); [apply IH|].
    constructor; [exact Hp|apply IH].
Qed.

Lemma collapse_Forall (P : LineData.t -> Prop) (l : list LineData.t) :
  Forall P l -> Forall P (collapse l).
Proof.
  intros H. destruct H as [|p r Hp Hr]; simpl; constructor; auto.
  now apply collapseFrom_Forall.
Qed.

Lemma collapseFrom_length (prev : Time) (l : list LineData.t) :
  (List.length (collapseFrom prev l) <= List.length l)%nat.
Proof.
  revert prev. induction l as [|p r IH]; intros prev; simpl; [lia|].
  destruct (Time_eqb (LineData.time p) prev); simpl;
    specialize (IH (LineData.time p)); lia.
Qed.

Lemma collapse_length (l : list LineData.t) :
  (List.length (collapse l) <= List.length l)%nat.
Proof.
  destruct l as [|p r]; simpl; [lia|].
  pose proof (collapseFrom_length (LineData.time p) r). lia.
Qed.

Lemma stitch_nonempty (lastBar : OHLCVBar.t)
  (prediction : list PredictionPoint.t) :
  stitch lastBar prediction <> [].
Proof.
  rewrite stitch_collapse_sort.
  set (l := anchor lastBar :: _).
  assert (Hl : List.length (sort byTime l) = S (List.length (tl l)))
    by now rewrite sort_length.
  destruct (sort byTime l); [discriminate|]. discriminate.
Qed.

(** X2.  Whatever the keys are, the stitched line is never empty, has at
    most one point more than the prediction list, and consists of the
    anchor and of prediction points dated differently from the last bar:
    the stitcher invents no other point. *)
Theorem stitch_points_from_input (lastBar : OHLCVBar.t)
  (prediction : list PredictionPoint.t) :
  stitch lastBar prediction <> []
  /\ (List.length (stitch lastBar prediction) <= S (List.length prediction))%nat
  /\ Forall (fun q =>
               q = anchor lastBar
               \/ exists p, In p prediction
                            /\ PredictionPoint.date p <> OHLCVBar.date lastBar
                            /\ q = asLine p)
            (stitch lastBar prediction).
Proof.
  split; [apply stitch_nonempty|]. rewrite stitch_collapse_sort. split.
  - etransitivity; [apply collapse_length|].
    rewrite sort_length. simpl. rewrite length_map.
    pose proof (filter_length_le
                  (fun p => negb (String.eqb (PredictionPoint.date p)
                                             (OHLCVBar.date lastBar)))
                  prediction). lia.
  - apply collapse_Forall, sort_Forall. constructor; [now left|].
    apply Forall_map, Forall_forall. intros p Hin.
    apply filter_In in Hin. destruct Hin as [Hin Hd]. right. exists p.
    split; [exact Hin|]. split; [|reflexivity].
    intros E. rewrite E, String.eqb_refl in Hd. discriminate.
Qed.

Lemma isoDate_not_digits (s : string) :
  isoDate s = true -> digitsOnly s = false.
Proof.
  unfold isoDate.
  destruct s as [|y1 [|y2 [|y3 [|y4 [|h1 r]]]]]; try discriminate.
  destruct r as [|m1 [|m2 [|h2 [|d1 [|d2 [|]]]]]]; try discriminate.
  intros H. repeat (apply andb_true_iff in H; destruct H as [H ?]).
  match goal with E : Ascii.eqb h1 _ = true |- _ =>
    apply Ascii.eqb_eq in E; subst h1 end.
  cbn [digitsOnly allDigits].
  replace (isDigit "-") with false by reflexivity.
  cbn [andb]. now rewrite !andb_false_r.
Qed.

Lemma StronglySorted_all {X : Type} (R : X -> X -> Prop) (l : list X) :
  (forall a b, In a l -> In b l -> R a b) -> StronglySorted R l.
Proof.
  induction l as [|x r IH]; intros H; constructor.
  - apply IH. intros a b Ha Hb. apply H; now right.
  - apply Forall_forall. intros b Hb. apply H; [now left|now right].
Qed.

(** X3.  With calendar dates (YYYY-MM-DD) throughout, the comparator is NaN
    on every pair and the sort moves nothing: the stitched line is the
    anchor followed by the prediction points dated differently from the
    last bar, in input order, each point dated like its predecessor
    dropped.  So the line begins with the anchor and its first value is the
    last bar's close, whatever the order of the predictions. *)
Theorem stitch_calendar_dates (lastBar : OHLCVBar.t)
  (prediction : list PredictionPoint.t) :
  Forall (fun s => isoDate s = true)
         (OHLCVBar.date lastBar :: map PredictionPoint.date prediction) ->
  stitch lastBar prediction
  = collapse
      (anchor lastBar
       :: map asLine
            (filter (fun p => negb (String.eqb (PredictionPoint.date p)
                                               (OHLCVBar.date lastBar)))
                    prediction))
  /\ hd_error (stitch lastBar prediction) = Some (anchor lastBar).
Proof.
  intros H.
  assert (E : stitch lastBar prediction
              = collapse
                  (anchor lastBar
                   :: map asLine
                        (filter (fun p => negb (String.eqb (PredictionPoint.date p)
                                                           (OHLCVBar.date lastBar)))
                                prediction))).
  { rewrite stitch_collapse_sort. f_equal. apply sort_id, StronglySorted_all.
    intros a b Ha _.
    assert (Hs : exists s, LineData.time a = TStr s).
    { inversion H as [|? ? Hb Hp]; subst. destruct Ha as [<-|Ha].
      - exists (OHLCVBar.date lastBar). unfold anchor, toTime. simpl.
        now rewrite (isoDate_not_digits _ Hb).
      - apply in_map_iff in Ha. destruct Ha as (p & <- & Hin).
        apply filter_In in Hin. destruct Hin as [Hin _].
        rewrite Forall_map, Forall_forall in Hp. specialize (Hp p Hin).
        exists (PredictionPoint.date p). unfold asLine, toTime. simpl.
        now rewrite (isoDate_not_digits _ Hp). }
    destruct Hs as [s Hs]. unfold byTime. now rewrite Hs. }
  split; [exact E|]. now rewrite E.
Qed.

Lemma stitch_calendar_dates_witness :
  let lastBar := OHLCVBar.mk "2024-01-05" 100 100 100 100 0 in
  let prediction :=
    [PredictionPoint.mk "2024-01-09" 110; PredictionPoint.mk "2024-01-08" 105;
     PredictionPoint.mk "2024-01-05" 101] in
  stitch lastBar prediction
  = [LineData.mk (TStr "2024-01-05") 100; LineData.mk (TStr "2024-01-09") 110;
     LineData.mk (TStr "2024-01-08") 105].
Proof.
  intros lastBar prediction.
  destruct (stitch_calendar_dates lastBar prediction) as [E _].
  - repeat constructor.
  - rewrite E. reflexivity.
Defined.

End StitchedLine.

Section PriceChart.

Import Labels.

Lemma flat_map_length_le {X Y : Type} (f : X -> list Y) (l : list X) :
  (forall x, List.length (f x) <= 1)%nat ->
  (List.length (flat_map f l) <= List.length l)%nat.
Proof.
  intros H. induction l as [|x r IH]; simpl; [lia|].
  rewrite length_app. specialize (H x). lia.
Qed.

Lemma contribution_length (key : OverlayKey) (lastBar : OHLCVBar.t)
  (ov : ChartOverlays.t) :
  (List.length (contribution key lastBar ov) <= 1)%nat.
Proof.
  destruct (contribution_shape key lastBar ov) as [->|[pts ->]]; simpl; lia.
Qed.

Lemma times_candleData (data : list OHLCVBar.t) :
  map CandlestickData.time (candleData data)
  = map toTime (map OHLCVBar.date data).
Proof. unfold candleData. now rewrite !map_map. Qed.

Lemma times_volumeData (data : list OHLCVBar.t) :
  map HistogramData.time (volumeData data)
  = map toTime (map OHLCVBar.date data).
Proof. unfold volumeData. now rewrite !map_map. Qed.

(** X4.  A render with bars builds a price chart whose first two series
    are the candlesticks and the volume histogram, both with one item per
    bar on the bars' time keys in bar order; they are followed by at most
    four lines, each the line of a visible overlay in that overlay's label
    colour. *)
Theorem price_series_layout (w : N) (x : OHLCVBar.t) (data : list OHLCVBar.t)
  (overlays : option ChartOverlays.t) (active : Active.t) (refs : Refs.t) :
  exists b price macdRef extra,
    render w (x :: data) overlays active refs
    = Ok (b, Refs.mk (Some price) macdRef)
    /\ Chart.series price
       = Candlestick (candleData (x :: data))
         :: Histogram (volumeData (x :: data)) :: extra
    /\ seriesTimes (Candlestick (candleData (x :: data)))
       = map toTime (map OHLCVBar.date (x :: data))
    /\ seriesTimes (Histogram (volumeData (x :: data)))
       = map toTime (map OHLCVBar.date (x :: data))
    /\ (List.length extra <= 4)%nat
    /\ Forall (fun s => exists key pts,
                 In key priceOverlays /\ get active key = true
                 /\ s = Line (color key) pts)
              extra.
Proof.
  destruct (render_charts w x data overlays active refs)
    as (b & lastBar & _ & Hr).
  eexists b, _, _, _. split; [exact Hr|]. split; [reflexivity|].
  split; [apply times_candleData|]. split; [apply times_volumeData|].
  destruct overlays as [ov|]; [|split; [simpl; lia|constructor]].
  split.
  - unfold contributions.
    etransitivity; [apply flat_map_length_le|simpl; lia].
    intros key. destruct (get active key); [|simpl; lia].
    apply contribution_length.
  - apply Forall_forall. intros s Hs. unfold contributions in Hs.
    apply in_flat_map in Hs. destruct Hs as (key & Hk & Hs).
    destruct (get active key) eqn:E; [|destruct Hs].
    destruct (contribution_shape key lastBar ov) as [E0|[pts E0]];
      rewrite E0 in Hs; [destruct Hs|].
    destruct Hs as [<-|[]]. now exists key, pts.
Qed.

Lemma withoutLine_toggle (key : OverlayKey) (active : Active.t)
  (lastBar : OHLCVBar.t) (ov : ChartOverlays.t) :
  withoutLine (color key) (contributions (toggle key active) lastBar ov)
  = withoutLine (color key) (contributions active lastBar ov).
Proof.
  unfold contributions, priceOverlays. cbn [flat_map].
  pose proof (contribution_shape sma50 lastBar ov) as H1.
  pose proof (contribution_shape sma200 lastBar ov) as H2.
  pose proof (contribution_shape sar lastBar ov) as H3.
  pose proof (contribution_shape prediction lastBar ov) as H4.
  set (c1 := contribution sma50 lastBar ov) in *.
  set (c2 := contribution sma200 lastBar ov) in *.
  set (c3 := contribution sar lastBar ov) in *.
  set (c4 := contribution prediction lastBar ov) in *.
  clearbody c1 c2 c3 c4.
  destruct H1 as [->|[p1 ->]], H2 as [->|[p2 ->]], H3 as [->|[p3 ->]],
           H4 as [->|[p4 ->]];
    destruct active as [[] [] [] [] a5]; destruct key; reflexivity.
Qed.

Lemma contributions_toggle_macd (active : Active.t) (lastBar : OHLCVBar.t)
  (ov : ChartOverlays.t) :
  contributions (toggle macd active) lastBar ov
  = contributions active lastBar ov.
Proof. now destruct active. Qed.

(** X5.  Toggling one overlay and rendering the same payload again changes
    nothing but that overlay: apart from the line in the toggled overlay's
    colour the price chart has the same series, with the same window; a
    toggle of a price overlay leaves the oscillator pane as it was, and the
    oscillator toggle leaves the price chart as it was. *)
Theorem toggle_changes_one_overlay (key : OverlayKey) (w : N)
  (x : OHLCVBar.t) (data : list OHLCVBar.t)
  (overlays : option ChartOverlays.t) (active : Active.t) (refs : Refs.t) :
  exists b price macdRef b' price' macdRef',
    render w (x :: data) overlays active refs
    = Ok (b, Refs.mk (Some price) macdRef)
    /\ render w (x :: data) overlays (toggle key active) refs
       = Ok (b', Refs.mk (Some price') macdRef')
    /\ withoutLine (color key) (Chart.series price')
       = withoutLine (color key) (Chart.series price)
    /\ Chart.visibleRange price' = Chart.visibleRange price
    /\ match key with
       | macd => price' = price
       | _ => macdRef' = macdRef
       end.
Proof.
  destruct (render_charts w x data overlays active refs)
    as (b & lastBar & Hl & Hr).
  destruct (render_charts w x data overlays (toggle key active) refs)
    as (b' & lastBar' & Hl' & Hr').
  rewrite Hl in Hl'. injection Hl' as <-.
  eexists b, _, _, b', _, _. split; [exact Hr|]. split; [exact Hr'|].
  cbn [Chart.series Chart.visibleRange]. split; [|split; [reflexivity|]].
  - destruct overlays as [ov|]; [|reflexivity].
    pose proof (withoutLine_toggle key active lastBar ov) as Ht.
    unfold withoutLine in *. rewrite !filter_app. now f_equal.
  - destruct overlays as [ov|]; [|now destruct key].
    destruct key; now destruct active.
Qed.


(** X7.  Both panes take their time display from the first bar alone: the
    time of day is shown exactly when the first bar's date is a digit
    string.  The oscillator pane, when it exists, is 150 high and holds
    three series in a fixed order, the MACD line, the signal line and the
    histogram, each with exactly the points whose own component is
    present. *)
Theorem panes_share_time_display (w : N) (x : OHLCVBar.t)
  (data : list OHLCVBar.t) (overlays : option ChartOverlays.t)
  (active : Active.t) (refs : Refs.t) :
  exists b price macdRef,
    render w (x :: data) overlays active refs
    = Ok (b, Refs.mk (Some price) macdRef)
    /\ Chart.timeVisible price = digitsOnly (OHLCVBar.date x)
    /\ Chart.height price = 420%N
    /\ match macdRef, overlays with
       | Some oscillator, Some ov =>
           Chart.timeVisible oscillator = Chart.timeVisible price
           /\ Chart.height oscillator = 150%N
           /\ exists histogram,
                Chart.series oscillator
                = [Line "#3b82f6" (lineData MACDPoint.date MACDPoint.macd
                                            (ChartOverlays.macd ov));
                   Line "#f97316" (lineData MACDPoint.date MACDPoint.signal
                                            (ChartOverlays.macd ov));
                   Histogram histogram]
                /\ map HistogramData.time histogram
                   = map (fun p => toTime (MACDPoint.date p))
                         (filter (fun p => notNull (MACDPoint.histogram p))
                                 (ChartOverlays.macd ov))
       | Some _, None => False
       | None, _ => True
       end.
Proof.
  destruct (render_charts w x data overlays active refs)
    as (b & lastBar & _ & Hr).
  eexists b, _, _. split; [exact Hr|]. split; [reflexivity|].
  split; [reflexivity|].
  destruct overlays as [ov|]; [|exact I].
  destruct (Active.macd active && hasLength (ChartOverlays.macd ov));
    [|exact I].
  split; [reflexivity|]. split; [reflexivity|].
  eexists. split; [reflexivity|]. now rewrite map_map.
Qed.

End PriceChart.

Section ResizeFacts.

Import Resize.

(** X8.  A resize never rebuilds anything: a chart exists after it exactly
    if it existed before, with the same series, window, height and time
    display.  With a mounted, non-zero-width price container both charts
    take that container's width; with no container or width 0 nothing
    changes.  Resizing twice to the same width is resizing once. *)
Theorem resize_only_sets_width (priceContainer : option N) (refs : Refs.t) :
  let refs' := handleResize priceContainer refs in
  let kept (c : Chart.t) :=
    (Chart.series c, Chart.visibleRange c, Chart.height c, Chart.timeVisible c) in
  option_map kept (Refs.priceChartRef refs')
  = option_map kept (Refs.priceChartRef refs)
  /\ option_map kept (Refs.macdChartRef refs')
     = option_map kept (Refs.macdChartRef refs)
  /\ match priceContainer with
     | Some w =>
         if N.eqb w 0 then refs' = refs
         else option_map Chart.width (Refs.priceChartRef refs')
              = option_map (fun _ => w) (Refs.priceChartRef refs)
              /\ option_map Chart.width (Refs.macdChartRef refs')
                 = option_map (fun _ => w) (Refs.macdChartRef refs)
     | None => refs' = refs
     end
  /\ handleResize priceContainer refs' = refs'.
Proof.
  destruct refs as [[p|] [m|]], priceContainer as [w|]; cbn;
    try destruct (N.eqb w 0); cbn; repeat split; reflexivity.
Qed.

End ResizeFacts.

Section TimeKeyFacts.

(** X9.  [toTime] keeps a string that is not all digits exactly as it is,
    and reads an all-digit string as its decimal value, so a leading zero
    changes nothing: different date strings can carry the same time key. *)
Theorem toTime_reads_digits (s : string) :
  (forall t, toTime s = TStr t -> t = s /\ digitsOnly s = false)
  /\ (forall n, toTime s = TNum n -> digitsOnly s = true /\ n = Number s)
  /\ (digitsOnly s = true -> toTime (String "0" s) = toTime s).
Proof.
  unfold toTime. split; [|split].
  - intros t. destruct (digitsOnly s); [discriminate|]. now intros [= <-].
  - intros n. destruct (digitsOnly s); [|discriminate]. now intros [= <-].
  - intros H. rewrite H.
    assert (Hd : digitsOnly (String "0" s) = true).
    { destruct s; [discriminate|exact H]. }
    rewrite Hd. f_equal. unfold Number. cbn [NilEmpty.uint_of_string].
    now destruct (NilEmpty.uint_of_string s).
Qed.

Lemma toTime_reads_digits_witness :
  toTime "2024-01-02" = TStr "2024-01-02"
  /\ toTime "1704186000" = TNum 1704186000
  /\ toTime "01704186000" = toTime "1704186000".
Proof.
  split; [|split].
  - destruct (toTime_reads_digits "2024-01-02") as (H & _ & _).
    destruct (H "2024-01-02" eq_refl) as [_ _]. reflexivity.
  - destruct (toTime_reads_digits "1704186000") as (_ & H & _).
    destruct (H 1704186000%N eq_refl) as [_ ->]. reflexivity.
  - destruct (toTime_reads_digits "1704186000") as (_ & _ & H).
    exact (H eq_refl).
Defined.

End TimeKeyFacts.

(** ** The page: flags, pausing, tickers and what is shown *)

Section PageFacts.

Import Home View.

Lemma existsb_remove {A : Type} (f : A -> bool) (l : list A) (i : nat) (q : A) :
  nth_error l i = Some q -> f q = false ->
  existsb f (firstn i l ++ skipn (S i) l) = existsb f l.
Proof.
  revert i. induction l as [|x r IH]; intros [|i] H Hq; simpl in *;
    try discriminate.
  - injection H as ->. now rewrite Hq.
  - now rewrite (IH i H Hq).
Qed.

Lemma Forall_remove {A : Type} (P : A -> Prop) (l : list A) (i : nat) :
  Forall P l -> Forall P (firstn i l ++ skipn (S i) l).
Proof.
  intros H. revert i. induction H as [|x r Hx Hr IH]; intros [|i]; simpl;
    try constructor; auto.
Qed.

Lemma run_invariant_guarded (G : Event -> bool) (P : State.t -> Prop) :
  (forall s e, G e = true -> P s -> P (step s e)) ->
  forall events s, forallb G events = true -> P s -> P (run s events).
Proof.
  intros Hstep events. induction events as [|e r IH]; intros s Hg Hs; simpl.
  - exact Hs.
  - simpl in Hg. apply andb_true_iff in Hg. destruct Hg as [He Hr].
    apply IH; [exact Hr|]. now apply Hstep.
Qed.

Lemma silentRefresh_cases (s : State.t) :
  silentRefresh s = s
  \/ (Params.ticker (State.latestParamsRef s) <> ""
      /\ silentRefresh s
         = State.mk (State.analysis s) (State.isLoading s) (State.error s)
             (State.currentTicker s) (State.activePeriod s)
             (State.activeInterval s) (State.autoRefresh s)
             (State.lastRefreshed s) true (State.refreshTimer s)
             (State.latestParamsRef s)
             (State.pending s
              ++ [Request.mk SilentRefresh (State.latestParamsRef s)])).
Proof.
  unfold silentRefresh.
  destruct (nonEmpty (Params.ticker (State.latestParamsRef s))) eqn:E; simpl.
  - right. split; [now apply nonEmpty_true|reflexivity].
  - now left.
Qed.

Lemma silentRefresh_flagsBacked (s : State.t) :
  flagsBacked s -> flagsBacked (silentRefresh s).
Proof.
  intros [Hl Hr]. destruct (silentRefresh_cases s) as [->|[_ ->]];
    [now split|].
  split; simpl; intros H; rewrite existsb_app.
  - now rewrite (Hl H).
  - simpl. now rewrite orb_true_r.
Qed.

Lemma step_flagsBacked (s : State.t) (e : Event) :
  flagsBacked s -> flagsBacked (step s e).
Proof.
  intros H. pose proof H as [Hl Hr]. destruct e; simpl.
  - split; simpl; intros Hf; rewrite existsb_app.
    + simpl. now rewrite orb_true_r.
    + now rewrite (Hr Hf).
  - split; simpl; intros Hf; rewrite existsb_app.
    + simpl. now rewrite orb_true_r.
    + now rewrite (Hr Hf).
  - destruct (refreshButtonEnabled s); [|exact H].
    now apply silentRefresh_flagsBacked.
  - destruct (nonEmpty (State.currentTicker s)); [|exact H]. exact H.
  - destruct (State.refreshTimer s); [|exact H].
    now apply silentRefresh_flagsBacked.
  - destruct (nth_error (State.pending s) i) as [q|] eqn:Eq; [|exact H].
    destruct (Request.caller q) eqn:Ec.
    + assert (Hq : isSilentRefresh q = false)
        by (unfold isSilentRefresh; now rewrite Ec).
      destruct r; split;
        unfold handleSearchSettled, settle;
        cbn [State.isLoading State.isRefreshing State.pending];
        intros Hf; try discriminate;
        rewrite (existsb_remove _ _ _ _ Eq Hq); now apply Hr.
    + assert (Hq : isHandleSearch q = false)
        by (unfold isHandleSearch; now rewrite Ec).
      destruct r; split;
        unfold silentRefreshSettled, settle;
        cbn [State.isLoading State.isRefreshing State.pending];
        intros Hf; try discriminate;
        rewrite (existsb_remove _ _ _ _ Eq Hq); now apply Hl.
Qed.

(** X10.  The two busy flags are always backed by a call in flight: while
    [isLoading] is true a call made by [handleSearch] is pending, and while
    [isRefreshing] is true (the refresh button disabled) a call made by
    [silentRefresh] is pending, whose completion resets the flag. *)
Theorem busy_flags_are_backed (events : list Event) :
  let s := run initial events in
  (State.isLoading s = true ->
   exists q, In q (State.pending s) /\ Request.caller q = HandleSearch)
  /\ (State.isRefreshing s = true ->
      exists q, In q (State.pending s) /\ Request.caller q = SilentRefresh).
Proof.
  intros s.
  assert (H : flagsBacked s).
  { apply run_invariant; [apply step_flagsBacked|]. split; discriminate. }
  destruct H as [Hl Hr]. split; intros Hf.
  - apply Hl, existsb_exists in Hf. destruct Hf as (q & Hin & Hq).
    exists q. split; [exact Hin|]. unfold isHandleSearch in Hq.
    now destruct (Request.caller q).
  - apply Hr, existsb_exists in Hf. destruct Hf as (q & Hin & Hq).
    exists q. split; [exact Hin|]. unfold isSilentRefresh in Hq.
    now destruct (Request.caller q).
Qed.

Lemma busy_flags_are_backed_witness :
  let s := run initial [Search "AAPL" "2y" "1d"; TimerFires] in
  (exists q, In q (State.pending s) /\ Request.caller q = HandleSearch)
  /\ (exists q, In q (State.pending s) /\ Request.caller q = SilentRefresh).
Proof.
  intros s.
  destruct (busy_flags_are_backed [Search "AAPL" "2y" "1d"; TimerFires])
    as [Hl Hr].
  split; [apply Hl|apply Hr]; reflexivity.
Defined.

(** X11.  While auto-refresh is paused a timer tick does nothing, and
    clicking the LIVE / PAUSED button twice brings the page back to the
    state it was in. *)
Theorem pause_stops_the_timer (events : list Event) :
  let s := run initial events in
  (State.autoRefresh s = false -> step s TimerFires = s)
  /\ step (step s ClickAutoRefresh) ClickAutoRefresh = s.
Proof.
  intros s. pose proof (reachable_consistent events) as [Hp Ht]. fold s in Hp, Ht.
  split.
  - intros Ha. simpl. now rewrite Ht, Ha.
  - simpl. destruct (nonEmpty (State.currentTicker s)) eqn:E; [|now rewrite E].
    cbn. rewrite E. unfold timerEffect, toggleAutoRefresh. cbn.
    rewrite negb_involutive, E, <- Ht. now destruct s.
Qed.

Lemma pause_stops_the_timer_witness :
  let s := run initial [Search "AAPL" "2y" "1d"; Settles 0 (Resolved aapl) 1;
                        ClickAutoRefresh] in
  step s TimerFires = s.
Proof.
  intros s.
  destruct (pause_stops_the_timer
              [Search "AAPL" "2y" "1d"; Settles 0 (Resolved aapl) 1;
               ClickAutoRefresh]) as [H _].
  exact (H eq_refl).
Defined.

Lemma step_refresh_tickers (s : State.t) (e : Event) :
  Forall (fun q => isSilentRefresh q = true
                   -> Params.ticker (Request.params q) <> "") (State.pending s) ->
  Forall (fun q => isSilentRefresh q = true
                   -> Params.ticker (Request.params q) <> "")
         (State.pending (step s e)).
Proof.
  intros H.
  assert (Hs : Forall (fun q => isSilentRefresh q = true
                                -> Params.ticker (Request.params q) <> "")
                      (State.pending (silentRefresh s))).
  { destruct (silentRefresh_cases s) as [->|[Hn ->]]; [exact H|].
    simpl. apply Forall_app. split; [exact H|]. now repeat constructor. }
  destruct e; simpl.
  - apply Forall_app. split; [exact H|]. repeat constructor. discriminate.
  - apply Forall_app. split; [exact H|]. repeat constructor. discriminate.
  - now destruct (refreshButtonEnabled s).
  - now destruct (nonEmpty (State.currentTicker s)).
  - now destruct (State.refreshTimer s).
  - destruct (nth_error (State.pending s) i) as [q|]; [|exact H].
    destruct (Request.caller q), r;
      unfold handleSearchSettled, silentRefreshSettled, settle;
      cbn [State.pending]; now apply Forall_remove.
Qed.

Lemma step_all_tickers (s : State.t) (e : Event) :
  hasTicker e = true ->
  Forall (fun q => Params.ticker (Request.params q) <> "") (State.pending s) ->
  Forall (fun q => Params.ticker (Request.params q) <> "")
         (State.pending (step s e)).
Proof.
  intros He H.
  assert (Hs : Forall (fun q => Params.ticker (Request.params q) <> "")
                      (State.pending (silentRefresh s))).
  { destruct (silentRefresh_cases s) as [->|[Hn ->]]; [exact H|].
    simpl. apply Forall_app. split; [exact H|]. now repeat constructor. }
  destruct e; simpl in *.
  - apply Forall_app. split; [exact H|]. repeat constructor.
    now apply nonEmpty_true.
  - apply Forall_app. split; [exact H|]. repeat constructor.
    now apply nonEmpty_true.
  - now destruct (refreshButtonEnabled s).
  - now destruct (nonEmpty (State.currentTicker s)).
  - now destruct (State.refreshTimer s).
  - destruct (nth_error (State.pending s) i) as [q|]; [|exact H].
    destruct (Request.caller q), r;
      unfold handleSearchSettled, silentRefreshSettled, settle;
      cbn [State.pending]; now apply Forall_remove.
Qed.

(** X12.  No refresh is ever issued for an empty ticker, whatever the
    events; and when every search carries a ticker, as the search form and
    the market list guarantee, no call at all is in flight for an empty
    ticker. *)
Theorem no_call_without_ticker (events : list Event) :
  let s := run initial events in
  Forall (fun q => isSilentRefresh q = true
                   -> Params.ticker (Request.params q) <> "") (State.pending s)
  /\ (forallb hasTicker events = true ->
      Forall (fun q => Params.ticker (Request.params q) <> "")
             (State.pending s)).
Proof.
  intros s. split.
  - apply run_invariant; [apply step_refresh_tickers|constructor].
  - intros H.
    apply (run_invariant_guarded hasTicker
             (fun s => Forall (fun q => Params.ticker (Request.params q) <> "")
                              (State.pending s)));
      [apply step_all_tickers | exact H | constructor].
Qed.

Lemma no_call_without_ticker_witness :
  let s := run initial [Search "AAPL" "2y" "1d"; TimerFires;
                        MarketSelect "TSLA"] in
  List.length (State.pending s) = 3%nat
  /\ Forall (fun q => Params.ticker (Request.params q) <> "") (State.pending s).
Proof.
  intros s. split; [reflexivity|].
  apply (no_call_without_ticker
           [Search "AAPL" "2y" "1d"; TimerFires; MarketSelect "TSLA"]).
  reflexivity.
Defined.

Lemma step_results_dated (s : State.t) (e : Event) :
  (State.analysis s <> None -> State.lastRefreshed s <> None) ->
  State.analysis (step s e) <> None -> State.lastRefreshed (step s e) <> None.
Proof.
  intros H. destruct e; simpl; try exact H.
  - destruct (refreshButtonEnabled s); [|exact H].
    now destruct (silentRefresh_cases s) as [->|[_ ->]].
  - now destruct (nonEmpty (State.currentTicker s)).
  - destruct (State.refreshTimer s); [|exact H].
    now destruct (silentRefresh_cases s) as [->|[_ ->]].
  - destruct (nth_error (State.pending s) i) as [q|]; [|exact H].
    destruct (Request.caller q), r; simpl; try exact H; try discriminate.
    congruence.
Qed.

(** X13.  Whenever the page shows results it also shows when they were
    last refreshed: an analysis is never in the state without a refresh
    time. *)
Theorem results_come_with_refresh_time (events : list Event) :
  let s := run initial events in
  showsResults s = true -> showsLastRefresh s = true.
Proof.
  intros s Hs. unfold showsLastRefresh. rewrite Hs. simpl.
  assert (H : State.analysis s <> None -> State.lastRefreshed s <> None).
  { apply (run_invariant (fun s => State.analysis s <> None
                                   -> State.lastRefreshed s <> None));
      [apply step_results_dated|]. intros H. now elim H. }
  unfold showsResults in Hs. apply andb_true_iff in Hs. destruct Hs as [Ha _].
  destruct (State.analysis s); [|discriminate].
  destruct (State.lastRefreshed s); [reflexivity|]. now elim H.
Qed.

Lemma results_come_with_refresh_time_witness :
  showsLastRefresh
    (run initial [Search "AAPL" "2y" "1d"; Settles 0 (Resolved aapl) 7;
                  MarketSelect "TSLA"; Settles 0 (Rejected "Unknown error") 9;
                  TimerFires; Settles 0 (Resolved tsla) 70])
  = true.
Proof.
  apply (results_come_with_refresh_time
           [Search "AAPL" "2y" "1d"; Settles 0 (Resolved aapl) 7;
            MarketSelect "TSLA"; Settles 0 (Rejected "Unknown error") 9;
            TimerFires; Settles 0 (Resolved tsla) 70]).
  reflexivity.
Defined.

End PageFacts.

(** ** The API call and the error banner *)

Section ApiFacts.

Import Home View Api.

Lemma analyzeStock_message (ticker period interval : string) (body : ErrorBody) :
  exists message,
    analyzeStock ticker period interval (ErrorResponse body) = Rejected message
    /\ nonEmpty message = true.
Proof.
  unfold analyzeStock. destruct body as [|[d|]]; simpl.
  - eexists. split; reflexivity.
  - destruct (nonEmpty d) eqn:E; eexists; (split; [reflexivity|]);
      [exact E|reflexivity].
  - eexists. split; reflexivity.
Qed.

(** X14.  A failed analyze request always rejects with a non-empty
    message: the response's [detail] when it is a non-empty string,
    "Unknown error" when the body is not JSON, and "Failed to analyze"
    followed by the ticker when the detail is missing or empty.  An ok
    response resolves with its payload. *)
Theorem analyzeStock_error_message (ticker period interval : string) :
  (forall data,
     analyzeStock ticker period interval (OkResponse data) = Resolved data)
  /\ (forall body,
        exists message,
          analyzeStock ticker period interval (ErrorResponse body)
          = Rejected message
          /\ message <> ""
          /\ message
             = match body with
               | NotJson => "Unknown error"
               | Json (Some d) =>
                   if nonEmpty d then d
                   else ("Failed to analyze " ++ ticker)%string
               | Json None => ("Failed to analyze " ++ ticker)%string
               end).
Proof.
  split; [reflexivity|]. intros body.
  destruct (analyzeStock_message ticker period interval body) as (m & E & Hm).
  exists m. split; [exact E|]. split; [now apply nonEmpty_true|].
  unfold analyzeStock in E. destruct body as [|[d|]]; simpl in E.
  - now injection E as <-.
  - destruct (nonEmpty d); now injection E as <-.
  - now injection E as <-.
Qed.

Lemma nth_error_last {A : Type} (l : list A) (x : A) :
  nth_error (l ++ [x]) (List.length l) = Some x.
Proof. induction l; simpl; auto. Qed.

Lemma remove_last {A : Type} (l : list A) (x : A) :
  firstn (List.length l) (l ++ [x]) ++ skipn (S (List.length l)) (l ++ [x]) = l.
Proof.
  induction l as [|y r IH]; [reflexivity|].
  change (y :: (firstn (List.length r) (r ++ [x])
                ++ skipn (S (List.length r)) (r ++ [x])) = y :: r).
  now rewrite IH.
Qed.

Lemma settle_at (s : State.t) (i : nat) (q : Request.t) (r : Settled)
  (now : N) :
  nth_error (State.pending s) i = Some q ->
  step s (Settles i r now)
  = match Request.caller q with
    | HandleSearch => handleSearchSettled r now (settle i s)
    | SilentRefresh => silentRefreshSettled r now (settle i s)
    end.
Proof. intros H. simpl. now rewrite H. Qed.

(** The state after a search whose call is rejected. *)
Lemma search_then_rejected (s : State.t) (ticker period interval : string)
  (m : string) (now : N) :
  step (step s (Search ticker period interval))
       (Settles (List.length (State.pending s)) (Rejected m) now)
  = State.mk None false (Some m) ticker period interval (State.autoRefresh s)
      (State.lastRefreshed s) (State.isRefreshing s)
      (State.autoRefresh s && nonEmpty ticker)
      (Params.mk ticker period interval) (State.pending s).
Proof.
  rewrite (settle_at _ _ (Request.mk HandleSearch
                            (Params.mk ticker period interval)))
    by apply nth_error_last.
  cbn [Request.caller]. unfold handleSearchSettled, settle.
  cbn [step timerEffect handleSearch State.analysis State.isLoading
       State.error State.currentTicker State.activePeriod
       State.activeInterval State.autoRefresh State.lastRefreshed
       State.isRefreshing State.refreshTimer State.latestParamsRef
       State.pending].
  f_equal. apply remove_last.
Qed.

(** X15.  A search whose request fails always ends on the error banner:
    from any state, once the call of that search is rejected with the
    message of [analyzeStock], the page shows the error, shows neither
    results nor the empty state, and has stopped loading. *)
Theorem failed_search_shows_error (s : State.t)
  (ticker period interval : string) (body : ErrorBody) (now : N) :
  let s' :=
    run s [Search ticker period interval;
           Settles (List.length (State.pending s))
                   (analyzeStock ticker period interval (ErrorResponse body))
                   now] in
  showsError s' = true
  /\ showsLoading s' = false
  /\ showsResults s' = false
  /\ showsEmptyState s' = false
  /\ State.pending s' = State.pending s.
Proof.
  destruct (analyzeStock_message ticker period interval body) as (m & E & Hm).
  intros s'. subst s'. rewrite E. unfold run. cbn [fold_left].
  rewrite search_then_rejected.
  unfold showsError, showsLoading, showsResults, showsEmptyState.
  cbn [State.error State.isLoading State.analysis State.pending truthyString
       notNull andb negb].
  rewrite Hm. repeat split.
Qed.

(** X16.  A successful background refresh does not clear the error: after
    a failed search, with auto-refresh on, the next tick's refresh, once
    resolved, puts the results on the page next to the error banner of the
    failed search. *)
Theorem refresh_keeps_error_banner (s : State.t)
  (ticker period interval : string) (body : ErrorBody)
  (data : StockAnalysis.t) (t1 t2 : N) :
  State.autoRefresh s = true -> ticker <> "" ->
  let n := List.length (State.pending s) in
  let s' :=
    run s [Search ticker period interval;
           Settles n (analyzeStock ticker period interval (ErrorResponse body)) t1;
           TimerFires;
           Settles n (Resolved data) t2] in
  showsError s' = true
  /\ showsResults s' = true
  /\ State.analysis s' = Some data.
Proof.
  intros Ha Ht n s'.
  destruct (analyzeStock_message ticker period interval body) as (m & E & Hm).
  subst s' n. rewrite E. apply nonEmpty_true in Ht.
  unfold run. cbn [fold_left]. rewrite search_then_rejected, Ha, Ht.
  cbn [andb].
  set (s2 := State.mk None false (Some m) ticker period interval true
               (State.lastRefreshed s) (State.isRefreshing s) true
               (Params.mk ticker period interval) (State.pending s)).
  assert (H3 : step s2 TimerFires
               = State.mk None false (Some m) ticker period interval true
                   (State.lastRefreshed s) true true
                   (Params.mk ticker period interval)
                   (State.pending s
                    ++ [Request.mk SilentRefresh
                          (Params.mk ticker period interval)])).
  { apply tick_issues; [reflexivity|]. simpl. now apply nonEmpty_true. }
  rewrite H3.
  rewrite (settle_at _ _ (Request.mk SilentRefresh
                            (Params.mk ticker period interval)))
    by apply nth_error_last.
  cbn [Request.caller]. unfold silentRefreshSettled, settle, showsError,
    showsResults.
  cbn [State.error State.isLoading State.analysis truthyString notNull andb
       negb].
  now rewrite Hm.
Qed.

Lemma refresh_keeps_error_banner_witness :
  let s' :=
    run initial
        [Search "AAPL" "2y" "1d";
         Settles 0 (analyzeStock "AAPL" "2y" "1d" (ErrorResponse NotJson)) 1;
         TimerFires;
         Settles 0 (Resolved aapl) 61] in
  showsError s' = true /\ showsResults s' = true
  /\ State.error s' = Some "Unknown error".
Proof.
  intros s'.
  destruct (refresh_keeps_error_banner initial "AAPL" "2y" "1d" NotJson aapl
              1 61 eq_refl ltac:(discriminate)) as (He & Hr & _).
  split; [exact He|]. split; [exact Hr|reflexivity].
Defined.

End ApiFacts.

(** ** The signed-in user *)

Section AuthFacts.

Import Auth.





End AuthFacts.

(** ** The search form *)

Section SearchBarFacts.

Import SearchBar.

Variables (trim toUpperCase : string -> string).

Lemma findPeriod_row (row : Period.t) :
  In row PERIODS -> findPeriod (Period.value row) = Some row.
Proof.
  intros H. repeat (destruct H as [<-|H]; [reflexivity|]). destruct H.
Qed.

Lemma findPeriod_some (value : string) (p : Period.t) :
  findPeriod value = Some p -> In p PERIODS /\ Period.value p = value.
Proof.
  intros H. apply find_some in H. destruct H as [Hin Hv].
  split; [exact Hin|]. now apply String.eqb_eq.
Qed.

(** X18.  Submitting the form calls [onSearch] only with a non-empty
    ticker, the typed text trimmed and upper-cased or else the current
    ticker, and with the period and interval of one row of the period
    table: the row of the selected period, or the 1y row when the selected
    period is in no row.  With no ticker at all it calls nothing. *)
Theorem submit_searches_with_ticker (form : Form.t)
  (currentTicker : option string) :
  match handleSubmit trim toUpperCase form currentTicker with
  | Some e =>
      exists row,
        e = Home.Search (getActiveTicker trim toUpperCase form currentTicker)
                        (Period.yfPeriod row) (Period.yfInterval row)
        /\ In row PERIODS
        /\ getActiveTicker trim toUpperCase form currentTicker <> ""
        /\ View.hasTicker e = true
        /\ match findPeriod (Form.period form) with
           | Some p => row = p
           | None => Period.value row = "1y"
           end
  | None => getActiveTicker trim toUpperCase form currentTicker = ""
  end.
Proof.
  unfold handleSubmit.
  destruct (Home.nonEmpty (getActiveTicker trim toUpperCase form currentTicker))
    eqn:E.
  - destruct (findPeriod (Form.period form)) as [p|] eqn:Ef.
    + exists p. split; [reflexivity|]. apply findPeriod_some in Ef.
      split; [tauto|]. split; [now apply nonEmpty_true|]. now split.
    + eexists. split; [reflexivity|]. split; [simpl; tauto|].
      split; [now apply nonEmpty_true|]. now split.
  - unfold Home.nonEmpty in E.
    destruct (String.eqb_spec (getActiveTicker trim toUpperCase form currentTicker) "");
      [assumption|discriminate].
Qed.

(** X19.  A click on the button of a row of the period table selects that
    period, keeps the typed text, never throws, and searches with that
    row's period and interval when there is a ticker; a value that is in no
    row, with a ticker present, makes the handler throw after the period
    was set. *)
Theorem period_click_uses_its_row (value : string) (form : Form.t)
  (currentTicker : option string) :
  let ticker := getActiveTicker trim toUpperCase form currentTicker in
  let result := handlePeriodClick trim toUpperCase value form currentTicker in
  fst result = Form.mk (Form.ticker form) value
  /\ (forall row, In row PERIODS -> value = Period.value row ->
      snd result
      = Ok (if Home.nonEmpty ticker
            then Some (Home.Search ticker (Period.yfPeriod row)
                                   (Period.yfInterval row))
            else None))
  /\ (findPeriod value = None -> ticker <> "" ->
      snd result = Throw (TypeError "Cannot read properties of undefined")).
Proof.
  intros ticker result. subst result. unfold handlePeriodClick. fold ticker.
  cbn [fst snd]. split; [reflexivity|]. split.
  - intros row Hin ->. rewrite (findPeriod_row row Hin).
    now destruct (Home.nonEmpty ticker).
  - intros Hf Ht. apply nonEmpty_true in Ht. now rewrite Ht, Hf.
Qed.

End SearchBarFacts.

Lemma period_click_uses_its_row_witness :
  let form := SearchBar.Form.mk "AAPL" "2y" in
  let id := fun s : string => s in
  snd (SearchBar.handlePeriodClick id id "5y" form None)
  = Ok (Some (Home.Search "AAPL" "5y" "1wk"))
  /\ snd (SearchBar.handlePeriodClick id id "10y" form None)
     = Throw (TypeError "Cannot read properties of undefined").
Proof.
  intros form id.
  destruct (period_click_uses_its_row id id "5y" form None) as (_ & Hrow & _).
  destruct (period_click_uses_its_row id id "10y" form None) as (_ & _ & Hno).
  split.
  - apply (Hrow (SearchBar.Period.mk "5y" "5Y" "5y" "1wk")); [|reflexivity].
    simpl. tauto.
  - apply Hno; [reflexivity|discriminate].
Defined.

(** ** The market list *)

Section MarketListFacts.

Import MarketList.

Lemma filter_remove_dead {A : Type} (g : A -> bool) (l : list A) (i : nat)
  (q : A) :
  nth_error l i = Some q -> g q = false ->
  filter g (firstn i l ++ skipn (S i) l) = filter g l.
Proof.
  intros H Hq. rewrite <- (firstn_skipn_middle _ _ H) at 3.
  rewrite !filter_app. simpl. now rewrite Hq.
Qed.

Lemma filter_remove_only {A : Type} (g : A -> bool) (l : list A) (i : nat)
  (q q' : A) :
  nth_error l i = Some q -> g q = true -> filter g l = [q'] ->
  filter g (firstn i l ++ skipn (S i) l) = [].
Proof.
  intros H Hq Hl. rewrite <- (firstn_skipn_middle _ _ H) in Hl.
  rewrite filter_app in Hl. simpl in Hl. rewrite Hq in Hl.
  rewrite filter_app.
  destruct (filter g (firstn i l)) as [|a r]; simpl in *.
  - injection Hl as _ ->. reflexivity.
  - injection Hl as _ Hl. now destruct r.
Qed.

Lemma isCancelled_older (older : list bool) (b : bool) (c : nat) :
  (c < List.length older)%nat ->
  isCancelled (older ++ [b]) c = isCancelled older c.
Proof. intros H. unfold isCancelled. now rewrite app_nth1. Qed.

Lemma isCancelled_last (older : list bool) (b : bool) :
  isCancelled (older ++ [b]) (List.length older) = b.
Proof.
  unfold isCancelled. now rewrite app_nth2, Nat.sub_diag by lia.
Qed.

Lemma cancelCurrent_last (older : list bool) (b : bool) :
  cancelCurrent (older ++ [b]) = older ++ [true].
Proof.
  unfold cancelCurrent.
  destruct (older ++ [b]) eqn:E; [now destruct older|].
  now rewrite <- E, removelast_last.
Qed.

(** While mounted, a request that is not cancelled is the one the current
    effect run issued, for the active tab, and the list is loading. *)
Lemma live_is_current (s : State.t) (f : Fetch.t) :
  wellKept s -> In f (State.pending s) ->
  isCancelled (State.cells s) (Fetch.cell f) = false ->
  State.isLoading s = true
  /\ f = Fetch.mk (State.activeTab s) (List.length (State.cells s) - 1)
  /\ live s = [f].
Proof.
  intros (_ & _ & Hl) Hin Hc.
  assert (Hf : In f (live s)).
  { unfold live. apply filter_In. split; [exact Hin|]. now rewrite Hc. }
  rewrite Hl in Hf. destruct (State.isLoading s); [|destruct Hf].
  destruct Hf as [<-|[]]. now rewrite Hl.
Qed.

Lemma runCleanup_cancels_all (s : State.t) (f : Fetch.t) :
  wellKept s -> In f (State.pending s) ->
  isCancelled (State.cells (runCleanup s)) (Fetch.cell f) = true.
Proof.
  intros H Hin. pose proof H as ([older Ho] & Hb & _).
  unfold runCleanup. cbn [State.cells]. rewrite Ho, cancelCurrent_last.
  rewrite Forall_forall in Hb. specialize (Hb f Hin).
  rewrite Ho, length_app in Hb. simpl in Hb.
  destruct (Nat.eq_dec (Fetch.cell f) (List.length older)) as [->|Hne].
  - apply isCancelled_last.
  - rewrite isCancelled_older by lia.
    destruct (isCancelled older (Fetch.cell f)) eqn:Ec; [reflexivity|].
    exfalso.
    assert (Hc : isCancelled (State.cells s) (Fetch.cell f) = false).
    { rewrite Ho, isCancelled_older by lia. exact Ec. }
    destruct (live_is_current s f H Hin Hc) as (_ & Hf & _).
    rewrite Hf, Ho, length_app in Hne. simpl in Hne. lia.
Qed.

Lemma step_wellKept (s : State.t) (e : Event) :
  isUnmount e = false -> wellKept s -> wellKept (step s e).
Proof.
  intros He H. pose proof H as ([older Ho] & Hb & Hl).
  destruct e as [key|i outcome|]; [| |discriminate]; simpl.
  - destruct (String.eqb key (State.activeTab s)); [exact H|].
    assert (Hc : State.cells (runCleanup s) = older ++ [true]).
    { unfold runCleanup. cbn [State.cells].
      now rewrite Ho, cancelCurrent_last. }
    assert (Hall : forall f, In f (State.pending s) ->
                     (Fetch.cell f < List.length (older ++ [true]))%nat
                     /\ isCancelled (older ++ [true]) (Fetch.cell f) = true).
    { intros f Hin. split.
      - rewrite Forall_forall in Hb. specialize (Hb f Hin).
        rewrite Ho in Hb. rewrite length_app in *. simpl in *. lia.
      - rewrite <- Hc. now apply runCleanup_cancels_all. }
    unfold wellKept, live, runEffect.
    cbn [State.cells State.pending State.isLoading State.activeTab].
    rewrite Hc. change (State.pending (runCleanup s)) with (State.pending s).
    split; [|split].
    + now exists (older ++ [true]).
    + apply Forall_app. split.
      * apply Forall_forall. intros f Hin. destruct (Hall f Hin) as [Hlt _].
        rewrite length_app. simpl. lia.
      * repeat constructor. cbn [Fetch.cell]. rewrite !length_app. simpl. lia.
    + rewrite filter_app.
      replace (filter _ (State.pending s)) with (@nil Fetch.t).
      * simpl. rewrite (isCancelled_last (older ++ [true]) false). simpl.
        do 2 f_equal. rewrite !length_app. simpl. lia.
      * symmetry. rewrite <- (filter_false (State.pending s)).
        apply filter_ext_in. intros f Hin. destruct (Hall f Hin) as [Hlt Hcf].
        now rewrite isCancelled_older, Hcf.
  - destruct (nth_error (State.pending s) i) as [f|] eqn:Ef; [|exact H].
    pose proof (nth_error_In _ _ Ef) as Hin.
    destruct (isCancelled (State.cells s) (Fetch.cell f)) eqn:Ec.
    + split; [|split]; cbn [State.cells State.pending State.isLoading
                            State.activeTab].
      * now exists older.
      * now apply Forall_remove.
      * unfold live, remove in *. cbn [State.cells State.pending].
        rewrite (filter_remove_dead _ _ _ _ Ef); [exact Hl|]. now rewrite Ec.
    + destruct (live_is_current s f H Hin Ec) as (Hload & Hf & Hlive).
      assert (Hnil : filter (fun f0 => negb (isCancelled (State.cells s)
                                                         (Fetch.cell f0)))
                            (remove i (State.pending s)) = []).
      { unfold remove. apply (filter_remove_only _ _ _ f f Ef);
          [now rewrite Ec|exact Hlive]. }
      destruct outcome; (split; [|split]);
        cbn [State.cells State.pending State.isLoading State.activeTab];
        try (now exists older); try (now apply Forall_remove);
        unfold live; cbn [State.cells State.pending]; exact Hnil.
Qed.

Lemma mounted_wellKept : wellKept mounted.
Proof.
  split; [|split].
  - now exists [].
  - repeat constructor.
  - reflexivity.
Qed.

Lemma run_wellKept (events : list Event) (s : State.t) :
  forallb (fun e => negb (isUnmount e)) events = true ->
  wellKept s -> wellKept (run s events).
Proof.
  revert s. induction events as [|e r IH]; intros s Hu Hs; simpl; [exact Hs|].
  simpl in Hu. apply andb_true_iff in Hu. destruct Hu as [He Hr].
  apply IH; [exact Hr|]. apply step_wellKept; [|exact Hs].
  now destruct (isUnmount e).
Qed.

(** X20.  While the list is mounted, the response to a request for another
    tab than the active one is dropped: the items, the error and the
    loading flag stay as they are, and only the request leaves the requests
    in flight. *)
Theorem other_tab_response_dropped (events : list Event) (i : nat)
  (f : Fetch.t) (outcome : Outcome) :
  let s := run mounted events in
  forallb (fun e => negb (isUnmount e)) events = true ->
  nth_error (State.pending s) i = Some f ->
  Fetch.category f <> State.activeTab s ->
  step s (Settles i outcome)
  = State.mk (State.activeTab s) (State.items s) (State.isLoading s)
             (State.error s) (State.cells s) (remove i (State.pending s)).
Proof.
  intros s Hu Hf Hc.
  pose proof (run_wellKept events mounted Hu mounted_wellKept) as H. fold s in H.
  simpl. rewrite Hf.
  destruct (isCancelled (State.cells s) (Fetch.cell f)) eqn:Ec; [reflexivity|].
  destruct (live_is_current s f H (nth_error_In _ _ Hf) Ec) as (_ & E & _).
  rewrite E in Hc. now elim Hc.
Qed.

Lemma other_tab_response_dropped_witness :
  let s := run mounted [ClickTab "crypto"] in
  let btc := MarketItem.mk "BTC-USD" "Bitcoin" (Some 60000) (Some 10) (Some 1) in
  State.activeTab s = "crypto"
  /\ State.items (step s (Settles 0 (Loaded [btc]))) = []
  /\ State.isLoading (step s (Settles 0 (Loaded [btc]))) = true.
Proof.
  intros s btc. split; [reflexivity|].
  assert (E : step s (Settles 0 (Loaded [btc]))
              = State.mk (State.activeTab s) (State.items s)
                  (State.isLoading s) (State.error s) (State.cells s)
                  (remove 0 (State.pending s))).
  { apply (other_tab_response_dropped [ClickTab "crypto"] 0
             (Fetch.mk "stocks" 0) (Loaded [btc])).
    - reflexivity.
    - reflexivity.
    - discriminate. }
  rewrite E. split; reflexivity.
Defined.

Lemma settle_live (s : State.t) (i : nat) (f : Fetch.t) (outcome : Outcome) :
  nth_error (State.pending s) i = Some f ->
  isCancelled (State.cells s) (Fetch.cell f) = false ->
  step s (Settles i outcome)
  = match outcome with
    | Loaded data =>
        State.mk (State.activeTab s) data false (State.error s)
                 (State.cells s) (remove i (State.pending s))
    | Failed message =>
        State.mk (State.activeTab s) (State.items s) false (Some message)
                 (State.cells s) (remove i (State.pending s))
    end.
Proof. intros Hf Hc. simpl. now rewrite Hf, Hc. Qed.

(** X21.  While the list is mounted and loading, exactly one request in
    flight is still awaited; it is for the active tab, and its response
    ends the loading, putting its items in the list or its message in the
    error.  While the list is not loading, no response changes what is
    shown. *)
Theorem loading_awaits_active_tab (events : list Event) :
  let s := run mounted events in
  forallb (fun e => negb (isUnmount e)) events = true ->
  (State.isLoading s = true ->
   exists i f,
     nth_error (State.pending s) i = Some f
     /\ live s = [f]
     /\ Fetch.category f = State.activeTab s
     /\ (forall data,
           State.items (step s (Settles i (Loaded data))) = data
           /\ State.isLoading (step s (Settles i (Loaded data))) = false)
     /\ (forall message,
           State.error (step s (Settles i (Failed message))) = Some message
           /\ State.isLoading (step s (Settles i (Failed message))) = false))
  /\ (State.isLoading s = false ->
      forall i outcome,
        let s' := step s (Settles i outcome) in
        State.items s' = State.items s /\ State.error s' = State.error s
        /\ State.isLoading s' = false).
Proof.
  intros s Hu.
  pose proof (run_wellKept events mounted Hu mounted_wellKept) as H. fold s in H.
  pose proof H as (_ & _ & Hl). split.
  - intros Hload. rewrite Hload in Hl.
    assert (Hin : In (Fetch.mk (State.activeTab s)
                               (List.length (State.cells s) - 1)) (live s))
      by (rewrite Hl; now left).
    unfold live in Hin. apply filter_In in Hin. destruct Hin as [Hin Hc].
    apply In_nth_error in Hin. destruct Hin as [i Hi].
    eexists i, _. split; [exact Hi|]. split; [exact Hl|].
    split; [reflexivity|].
    apply negb_true_iff in Hc.
    split; intros x; rewrite (settle_live s i _ _ Hi Hc); now split.
  - intros Hload i outcome s'. subst s'. simpl.
    destruct (nth_error (State.pending s) i) as [f|] eqn:Ef; [|now split].
    destruct (isCancelled (State.cells s) (Fetch.cell f)) eqn:Ec; [now split|].
    destruct (live_is_current s f H (nth_error_In _ _ Ef) Ec) as (E & _).
    congruence.
Qed.

Lemma loading_awaits_active_tab_witness :
  let s := run mounted [ClickTab "crypto"; Settles 0 (Failed "Failed to fetch stocks")] in
  let s0 := run mounted [Settles 0 (Loaded [])] in
  State.isLoading s = true
  /\ (exists i f, nth_error (State.pending s) i = Some f
                  /\ Fetch.category f = "crypto")
  /\ State.isLoading s0 = false
  /\ State.error (step s0 (Settles 0 (Failed "late"))) = None.
Proof.
  intros s s0. split; [reflexivity|].
  destruct (loading_awaits_active_tab
              [ClickTab "crypto"; Settles 0 (Failed "Failed to fetch stocks")]
              eq_refl) as [H _].
  destruct (loading_awaits_active_tab [Settles 0 (Loaded [])] eq_refl)
    as [_ H0].
  destruct (H eq_refl) as (i & f & Hi & _ & Hc & _).
  split; [exists i, f; split; [exact Hi|exact Hc]|].
  split; [reflexivity|].
  destruct (H0 eq_refl 0%nat (Failed "late")) as (_ & He & _). exact He.
Defined.

Lemma settle_after_cleanup (s : State.t) (i : nat) (outcome : Outcome) :
  Forall (fun f => isCancelled (State.cells s) (Fetch.cell f) = true)
         (State.pending s) ->
  let s' := step s (Settles i outcome) in
  State.items s' = State.items s /\ State.error s' = State.error s
  /\ State.isLoading s' = State.isLoading s
  /\ State.activeTab s' = State.activeTab s
  /\ Forall (fun f => isCancelled (State.cells s') (Fetch.cell f) = true)
            (State.pending s').
Proof.
  intros H s'. subst s'. simpl.
  destruct (nth_error (State.pending s) i) as [f|] eqn:Ef;
    [|repeat split; exact H].
  rewrite Forall_forall in H. rewrite (H f (nth_error_In _ _ Ef)).
  cbn [State.items State.error State.isLoading State.activeTab State.cells
       State.pending].
  repeat split. apply Forall_remove. now apply Forall_forall.
Qed.

(** X22.  Once the list has unmounted, no response is applied any more:
    whatever requests settle afterwards, in whatever order and with
    whatever outcome, the items, the error and the loading flag stay as
    they were at the unmount. *)
Theorem no_update_after_unmount (events : list Event)
  (later : list (nat * Outcome)) :
  forallb (fun e => negb (isUnmount e)) events = true ->
  let s := step (run mounted events) Unmount in
  let s' := run s (map (fun '(i, outcome) => Settles i outcome) later) in
  State.items s' = State.items s /\ State.error s' = State.error s
  /\ State.isLoading s' = State.isLoading s
  /\ State.activeTab s' = State.activeTab s.
Proof.
  intros Hu s s'.
  pose proof (run_wellKept events mounted Hu mounted_wellKept) as H.
  assert (Hc : Forall (fun f => isCancelled (State.cells s) (Fetch.cell f) = true)
                      (State.pending s)).
  { apply Forall_forall. intros f Hin.
    apply (runCleanup_cancels_all _ f H). exact Hin. }
  subst s'. clearbody s. clear H Hu events.
  revert s Hc. induction later as [|[i outcome] r IH]; intros s Hc;
    [now repeat split|].
  change (run s (map (fun '(i, outcome) => Settles i outcome)
                     ((i, outcome) :: r)))
    with (run (step s (Settles i outcome))
              (map (fun '(i, outcome) => Settles i outcome) r)).
  destruct (settle_after_cleanup s i outcome Hc) as (E1 & E2 & E3 & E4 & Hc').
  destruct (IH _ Hc') as (F1 & F2 & F3 & F4).
  repeat split; congruence.
Qed.

Lemma no_update_after_unmount_witness :
  let aapl := MarketItem.mk "AAPL" "Apple" (Some 190) (Some 1) (Some 1) in
  let s := run mounted [Unmount; Settles 0 (Loaded [aapl])] in
  State.items s = [] /\ State.isLoading s = true.
Proof.
  intros aapl s.
  destruct (no_update_after_unmount [] [(0%nat, Loaded [aapl])] eq_refl)
    as (Hi & _ & Hl & _).
  split; [exact Hi|exact Hl].
Defined.

End MarketListFacts.
